(** * IoT sensor data API ([src/server.js]): ingestion, retrieval and cleanup

    A shallow embedding of the Express handlers of [src/server.js] and of the
    parts of the JavaScript runtime they call ([parseFloat], [parseInt],
    [ToString], truthiness, [===], [Array.prototype.slice]), followed by the
    properties of the ingestion pipeline, the bounded stores and the query
    handlers.

    Conventions of the embedding.
    - The three module-level containers ([devices], [sensorData],
      [connectionLogs]) form the record [State]; every handler is a function
      [State -> Response * State].
    - A JSON number is kept as the exact decimal [m * 10^e] that was written;
      rounding to binary64 is not modelled (so [-0] and [0] coincide, and an
      underflowing literal keeps its sign).  NaN and the infinities are
      separate constructors.
    - Strings are byte strings; the non-ASCII white space of [StrWhiteSpaceChar]
      is not modelled.
    - A [Date] is its time value in milliseconds since the epoch.  An ISO
      string made by [toISOString] is kept as that time value:
      [new Date(d.toISOString())] has the time value of [d].  The clock and
      [Math.random] are inputs of a handler (the record [Env]).
    - An exception thrown inside a [try] block is a result of its own
      ([Thrown]); the state reached when it is thrown is the state the
      [catch] continues from.
    - [console.log] output is not part of the state. *)

From Stdlib Require Import ZArith String Ascii List Lia DecimalString DecimalPos.
From stdpp Require Import base option list gmap strings.

#[local] Set Warnings "-register-all".

(** ** The JavaScript values and built-ins used by the server *)

Module JS.

Inductive number : Type :=
  | NaN
  | Infinity (negative : bool)
  | Dec (m e : Z).

(** What [JSON.parse] (or [qs]) can put in [req.body] and [req.query], plus
    [undefined] for a property that is not there. *)
Inductive value : Type :=
  | Undefined
  | Null
  | Bool (b : bool)
  | Num (n : number)
  | Str (s : string)
  | Arr (elems : list value)
  | Obj (props : list (string * value)).

Definition of_Z (z : Z) : number := Dec z 0.

Definition isNaN (n : number) : bool :=
  match n with NaN => true | _ => false end.

(** [ToBoolean]: the falsy values are [undefined], [null], [false], [0],
    [NaN] and the empty string. *)
Definition truthy (v : value) : bool :=
  match v with
  | Undefined | Null => false
  | Bool b => b
  | Num NaN => false
  | Num (Dec m _) => negb (m =? 0)%Z
  | Num (Infinity _) => true
  | Str s => negb (String.eqb s "")
  | Arr _ | Obj _ => true
  end.

(** [a || b] *)
Definition or_else (a b : value) : value := if truthy a then a else b.

(** [v === undefined] *)
Definition is_undefined (v : value) : bool :=
  match v with Undefined => true | _ => false end.

(** *** Comparison of numbers *)

Definition Dec_compare (m1 e1 m2 e2 : Z) : comparison :=
  let e := Z.min e1 e2 in
  (m1 * 10 ^ (e1 - e) ?= m2 * 10 ^ (e2 - e))%Z.

(** [a < b] *)
Definition lt (a b : number) : bool :=
  match a, b with
  | NaN, _ | _, NaN => false
  | Infinity true, Infinity true => false
  | Infinity true, _ => true
  | _, Infinity true => false
  | Infinity false, _ => false
  | _, Infinity false => true
  | Dec m1 e1, Dec m2 e2 =>
      match Dec_compare m1 e1 m2 e2 with Lt => true | _ => false end
  end.

(** [a > b] *)
Definition gt (a b : number) : bool := lt b a.

Definition number_eq (a b : number) : bool :=
  match a, b with
  | Dec m1 e1, Dec m2 e2 =>
      match Dec_compare m1 e1 m2 e2 with Eq => true | _ => false end
  | Infinity s1, Infinity s2 => Bool.eqb s1 s2
  | _, _ => false
  end.

(** [a === b].  Arrays and objects are compared by reference; the two sides
    of every [===] of the server on such values come from different requests,
    hence are different objects. *)
Definition strict_eq (a b : value) : bool :=
  match a, b with
  | Undefined, Undefined | Null, Null => true
  | Bool x, Bool y => Bool.eqb x y
  | Num x, Num y => number_eq x y
  | Str x, Str y => String.eqb x y
  | _, _ => false
  end.

(** *** Characters *)

Definition is_white_space (c : ascii) : bool :=
  let n := nat_of_ascii c in
  (n =? 9) || (n =? 10) || (n =? 11) || (n =? 12) || (n =? 13) || (n =? 32).

(** The value of an alphanumeric character as a digit: [0-9] are 0 to 9,
    [a-z] and [A-Z] are 10 to 35. *)
Definition digit_value (c : ascii) : option Z :=
  let n := nat_of_ascii c in
  if (48 <=? n) && (n <=? 57) then Some (Z.of_nat (n - 48))
  else if (97 <=? n) && (n <=? 122) then Some (Z.of_nat (n - 87))
  else if (65 <=? n) && (n <=? 90) then Some (Z.of_nat (n - 55))
  else None.

Definition digit_in (radix : Z) (c : ascii) : option Z :=
  match digit_value c with
  | Some d => if (d <? radix)%Z then Some d else None
  | None => None
  end.

Fixpoint trim_start (s : string) : string :=
  match s with
  | String c r => if is_white_space c then trim_start r else s
  | EmptyString => s
  end.

(** The longest prefix of [s] made of digits of [radix], with what follows. *)
Fixpoint span_digits (radix : Z) (s : string) : list Z * string :=
  match s with
  | String c r =>
      match digit_in radix c with
      | Some d => let '(ds, rest) := span_digits radix r in (d :: ds, rest)
      | None => ([], s)
      end
  | EmptyString => ([], s)
  end.

Definition digits_value (radix : Z) (ds : list Z) : Z :=
  fold_left (fun acc d => acc * radix + d)%Z ds 0%Z.

(** An optional sign: whether it is [-], and what follows. *)
Definition read_sign (s : string) : bool * string :=
  match s with
  | String "-"%char r => (true, r)
  | String "+"%char r => (false, r)
  | _ => (false, s)
  end.

Definition signed (negative : bool) (z : Z) : Z :=
  if negative then (- z)%Z else z.

(** *** [parseFloat] on a string: the longest prefix that is a
    [StrDecimalLiteral], after leading white space. *)

Definition read_exponent (s : string) : Z :=
  match s with
  | String c r =>
      if Ascii.eqb c "e" || Ascii.eqb c "E" then
        let '(negative, r') := read_sign r in
        match fst (span_digits 10 r') with
        | [] => 0%Z
        | ds => signed negative (digits_value 10 ds)
        end
      else 0%Z
  | EmptyString => 0%Z
  end.

Definition parseFloat_string (input : string) : number :=
  let '(negative, s) := read_sign (trim_start input) in
  if String.prefix "Infinity" s then Infinity negative
  else
    let '(ip, s1) := span_digits 10 s in
    let '(fp, s2) :=
      match s1 with
      | String "."%char r => span_digits 10 r
      | _ => ([], s1)
      end in
    match ip ++ fp with
    | [] => NaN
    | ds => Dec (signed negative (digits_value 10 ds))
                (read_exponent s2 - Z.of_nat (length fp))
    end.

(** *** [parseInt] on a string, with no radix argument: radix 16 after a
    [0x] prefix, radix 10 otherwise.  [None] is NaN; the integer is exact. *)

Definition parseInt_string (input : string) : option Z :=
  let '(negative, s) := read_sign (trim_start input) in
  let '(radix, s') :=
    match s with
    | String "0"%char (String c r) =>
        if Ascii.eqb c "x" || Ascii.eqb c "X" then (16%Z, r) else (10%Z, s)
    | _ => (10%Z, s)
    end in
  match fst (span_digits radix s') with
  | [] => None
  | ds => Some (signed negative (digits_value radix ds))
  end.

(** *** [Number::toString] (radix 10) *)

Definition decimal_digits (p : positive) : list ascii :=
  list_ascii_of_string (NilEmpty.string_of_uint (Pos.to_uint p)).

Fixpoint drop_zeros (ds : list ascii) : list ascii :=
  match ds with
  | c :: r => if Ascii.eqb c "0" then drop_zeros r else ds
  | [] => []
  end.

Definition strip_trailing_zeros (ds : list ascii) : list ascii :=
  rev (drop_zeros (rev ds)).

Definition zeros (n : Z) : list ascii := repeat ("0" : ascii) (Z.to_nat n).

Definition Z_toString (z : Z) : string :=
  match z with
  | Z0 => "0"
  | Zpos p => string_of_list_ascii (decimal_digits p)
  | Zneg p => "-" +:+ string_of_list_ascii (decimal_digits p)
  end.

(** The digits [s] (without trailing zeros), their number [k], and [n] with
    [10^(n-1) <= p * 10^e < 10^n], laid out as [Number::toString] does. *)
Definition positive_toString (p : positive) (e : Z) : string :=
  let all := decimal_digits p in
  let s := strip_trailing_zeros all in
  let k := Z.of_nat (length s) in
  let n := (Z.of_nat (length all) + e)%Z in
  string_of_list_ascii
    (if (k <=? n)%Z && (n <=? 21)%Z then s ++ zeros (n - k)
     else if (0 <? n)%Z && (n <=? 21)%Z then
       take (Z.to_nat n) s ++ ["."%char] ++ drop (Z.to_nat n) s
     else if (-6 <? n)%Z && (n <=? 0)%Z then
       ["0"%char; "."%char] ++ zeros (- n) ++ s
     else
       let exponent :=
         (if (n - 1 <? 0)%Z then "-"%char else "+"%char)
           :: list_ascii_of_string (Z_toString (Z.abs (n - 1))) in
       match s with
       | [] => []
       | [d] => d :: "e"%char :: exponent
       | d :: rest => d :: "."%char :: rest ++ "e"%char :: exponent
       end).

Definition Number_toString (x : number) : string :=
  match x with
  | NaN => "NaN"
  | Infinity negative => if negative then "-Infinity" else "Infinity"
  | Dec Z0 _ => "0"
  | Dec (Zpos p) e => positive_toString p e
  | Dec (Zneg p) e => "-" +:+ positive_toString p e
  end.

(** *** [ToString]

    [None] is a thrown [TypeError]: a parsed object that has an own property
    [toString] hides [Object.prototype.toString] with something that is not
    callable, and [OrdinaryToPrimitive] then finds no primitive.  An array
    is joined with [","], with [undefined] and [null] elements empty. *)
Fixpoint ToString (v : value) : option string :=
  match v with
  | Undefined => Some "undefined"
  | Null => Some "null"
  | Bool b => Some (if b then "true" else "false")
  | Num n => Some (Number_toString n)
  | Str s => Some s
  | Arr elems =>
      (fix join (l : list value) : option string :=
         match l with
         | [] => Some ""
         | x :: r =>
             match (match x with
                    | Undefined | Null => Some ""
                    | _ => ToString x
                    end) with
             | None => None
             | Some sx =>
                 match r with
                 | [] => Some sx
                 | _ => match join r with
                        | None => None
                        | Some sr => Some (sx +:+ "," +:+ sr)
                        end
                 end
             end
         end) elems
  | Obj props =>
      if existsb (fun kv => String.eqb (fst kv) "toString") props
      then None
      else Some "[object Object]"
  end.

(** [parseFloat(v)] and [parseInt(v)] convert their argument with [ToString]
    first; [None] is the [TypeError] of [ToString]. *)
Definition parseFloat (v : value) : option number :=
  parseFloat_string <$> ToString v.

Definition parseInt (v : value) : option (option Z) :=
  parseInt_string <$> ToString v.

(** [Math.min(a, b)] and [a + b] on results of [parseInt] ([None] is NaN). *)
Definition Math_min (a b : option Z) : option Z :=
  match a, b with
  | Some x, Some y => Some (Z.min x y)
  | _, _ => None
  end.

Definition add (a b : option Z) : option Z :=
  match a, b with
  | Some x, Some y => Some (x + y)%Z
  | _, _ => None
  end.

(** [ToIntegerOrInfinity]: NaN is 0. *)
Definition ToIntegerOrInfinity (a : option Z) : Z :=
  match a with
  | Some z => z
  | None => 0%Z
  end.

(** [Array.prototype.slice(start, end)]: a negative index counts from the
    end, both are clamped to the array. *)
Definition slice {A : Type} (l : list A) (start end_ : option Z) : list A :=
  let len := Z.of_nat (length l) in
  let clamp (i : Z) := if (i <? 0)%Z then Z.max (len + i) 0 else Z.min i len in
  let k := clamp (ToIntegerOrInfinity start) in
  let final := clamp (ToIntegerOrInfinity end_) in
  take (Z.to_nat (final - k)) (drop (Z.to_nat k) l).

(** Own property lookup in a parsed object, whose properties are listed
    with each key once; [undefined] when the key is not there. *)
Fixpoint lookup_prop (k : string) (props : list (string * value)) : value :=
  match props with
  | [] => Undefined
  | (k', v) :: r => if String.eqb k' k then v else lookup_prop k r
  end.

End JS.

(** ** The data held by the server *)

(** The value of [devices[id]] for a registered device. *)
Module Device.
Record t : Type := mk {
  name : JS.value;
  location : string;
  registeredAt : Z;
  autoRegistered : bool   (* [false]: the property is absent *)
}.
End Device.

(** What [devices[key]] evaluates to.  [devices] is an ordinary object, so a
    key that is not an own property is looked up in [Object.prototype], whose
    properties are functions (and [__proto__], the prototype itself). *)
Inductive Property : Type :=
  | Own (d : Device.t)
  | Inherited
  | Missing.

Definition Object_prototype_keys : list string :=
  ["constructor"; "__defineGetter__"; "__defineSetter__"; "hasOwnProperty";
   "__lookupGetter__"; "__lookupSetter__"; "isPrototypeOf";
   "propertyIsEnumerable"; "toString"; "valueOf"; "__proto__";
   "toLocaleString"].

Definition get_property (devices : gmap string Device.t) (key : string) : Property :=
  match devices !! key with
  | Some d => Own d
  | None => if existsb (String.eqb key) Object_prototype_keys
            then Inherited else Missing
  end.

Definition Property_truthy (p : Property) : bool :=
  match p with Own _ | Inherited => true | Missing => false end.

(** [ts || new Date().toISOString()]: the value sent by the device, or the
    ISO string of the time value [t]. *)
Inductive Stamp : Type :=
  | FromDevice (ts : JS.value)
  | IsoString (t : Z).

(** An element of [sensorData]. *)
Module Entry.
Record t : Type := mk {
  id : string;
  device_id : JS.value;
  device_meta : Property;
  sensor : JS.value;
  temperature : JS.number;
  humidity : JS.number;
  timestamp : Stamp;
  received_at : Z;
  client_ip : option string
}.
End Entry.

(** An element of [connectionLogs]. *)
Module Log.
Record t : Type := mk {
  timestamp : Z;
  ip : option string;
  userAgent : string;
  status : string;
  message : string;
  apiKey : string
}.
End Log.

Record State : Type := mkState {
  devices : gmap string Device.t;
  sensorData : list Entry.t;
  connectionLogs : list Log.t
}.

(** What a handler reads of [req]; a header that was not sent is [None]. *)
Record Request : Type := mkRequest {
  ip : option string;
  remoteAddress : option string;       (* [req.connection.remoteAddress] *)
  user_agent : option string;          (* [req.headers['user-agent']] *)
  x_api_key : option string;           (* [req.headers['x-api-key']] *)
  body : JS.value;
  query : list (string * JS.value)
}.

(** What a handler reads of its surroundings: the clock ([new Date()],
    [Date.now()]; a handler runs to completion, all its readings are taken at
    the one instant [now]) and [Math.random().toString(36).substr(2, 9)]. *)
Record Env : Type := mkEnv {
  now : Z;
  random_suffix : string
}.

(** The JSON documents the handlers send. *)
Inductive Body : Type :=
  | ServiceInfo
  | Health
  | Failure (error message : string)
  | MissingFields (device_id sensor temperature humidity : JS.value)
  | InvalidTypes (temperature humidity : JS.value)
  | Received (entry_id : string) (device_id : JS.value) (timestamp : Z)
  | DeviceList (count : nat) (devices : gmap string Device.t)
  | DataPage (total returned : nat) (offset limit : option Z) (data : list Entry.t)
  | LogPage (count : nat) (logs : list Log.t)
  | Statistics (total_devices total_data_points data_last_hour data_last_24h : nat)
               (latest_entry : option Entry.t)
  | CleanedUp (deleted : Z) (days : JS.value) (remaining : nat)
  | InternalError
  | NotFound.

Record Response : Type := mkResponse {
  status : nat;
  json : Body
}.

(** How the [try] block of a handler ends: a response was sent, or an
    exception with the given message reached the [catch]. *)
Inductive Completion : Type :=
  | Sent (r : Response)
  | Thrown (message : string).

(** ** Start-up (lines 19 to 45) *)

(** Truthiness of a header or environment variable, a string or [undefined]:
    [undefined] and the empty string are falsy. *)
Definition header_truthy (h : option string) : bool :=
  match h with
  | Some s => negb (String.eqb s "")
  | None => false
  end.

Definition initial_state (started : Z) : State :=
  {| devices :=
       <["C4D8D539D335" := Device.mk (JS.Str "Greenhouse_Node_1") "Greenhouse-01" started false]>
       (<["DEADBEEF0001" := Device.mk (JS.Str "Greenhouse_Node_1") "Greenhouse-01" started false]> ∅);
     sensorData := [];
     connectionLogs := [] |}.

(** [const API_KEY = process.env.API_KEY] is a string or [undefined]
    ([None]).  [inl code] is [process.exit(code)]; otherwise the state the
    server starts from. *)
Definition startup (API_KEY : option string) (started : Z) : nat + State :=
  if negb (header_truthy API_KEY) then inl 1
  else inr (initial_state started).

(** ** [logConnection] (lines 48 to 65) *)

(** [l.push(x); if (l.length > cap) l.shift();] *)
Definition push_capped {A : Type} (cap : nat) (x : A) (l : list A) : list A :=
  let pushed := l ++ [x] in
  if cap <? length pushed then tail pushed else pushed.

(** Pushing [xs] one by one. *)
Definition push_all {A : Type} (cap : nat) (xs l : list A) : list A :=
  fold_left (fun s x => push_capped cap x s) xs l.

(** [a || b] on headers and addresses. *)
Definition or_header (a b : option string) : option string :=
  if header_truthy a then a else b.

Definition make_log (env : Env) (req : Request) (status message : string) : Log.t :=
  {| Log.timestamp := now env;
     Log.ip := or_header (ip req) (remoteAddress req);
     Log.userAgent := match or_header (user_agent req) (Some "Unknown") with
                      | Some agent => agent
                      | None => "Unknown"
                      end;
     Log.status := status;
     Log.message := message;
     Log.apiKey := if header_truthy (x_api_key req) then "Present" else "Missing" |}.

Definition logConnection (env : Env) (req : Request) (status message : string)
    (st : State) : State :=
  let log := make_log env req status message in
  {| devices := devices st;
     sensorData := sensorData st;
     connectionLogs := push_capped 100 log (connectionLogs st) |}.

(** ** [POST /api/data] (lines 105 to 216) *)

Definition with_devices (d : gmap string Device.t) (st : State) : State :=
  {| devices := d; sensorData := sensorData st; connectionLogs := connectionLogs st |}.

Definition with_sensorData (s : list Entry.t) (st : State) : State :=
  {| devices := devices st; sensorData := s; connectionLogs := connectionLogs st |}.

(** [const { device_id, ... } = req.body]: destructuring [undefined] or [null]
    throws a [TypeError] (the messages are V8's); an object gives its own
    property or [undefined]; a body that is an array, a string, a number or
    a boolean has none of the properties the handler reads. *)
Definition destructure (b : JS.value) : string + (string -> JS.value) :=
  match b with
  | JS.Undefined =>
      inl "Cannot destructure property 'device_id' of 'req.body' as it is undefined."
  | JS.Null =>
      inl "Cannot destructure property 'device_id' of 'req.body' as it is null."
  | JS.Obj props => inr (fun k => JS.lookup_prop k props)
  | _ => inr (fun _ => JS.Undefined)
  end.

Definition not_primitive : string := "Cannot convert object to primitive value".

(** [temp < -50 || temp > 100 || hum < 0 || hum > 100] *)
Definition outside_ranges (temp hum : JS.number) : bool :=
  JS.lt temp (JS.of_Z (-50)) || JS.gt temp (JS.of_Z 100)
  || JS.lt hum (JS.of_Z 0) || JS.gt hum (JS.of_Z 100).

(** Lines 158 to 162: the range check, which only logs. *)
Definition check_ranges (env : Env) (req : Request) (temp hum : JS.number)
    (st : State) : State :=
  if outside_ranges temp hum
  then logConnection env req "WARNING" "Data outside expected ranges" st
  else st.

(** Lines 164 to 174: [if (!devices[device_id]) { devices[device_id] = ...;
    logConnection(...) }], with [key] the property key of [device_id]. *)
Definition auto_register (env : Env) (req : Request) (key : string)
    (device_name : JS.value) (st : State) : State :=
  if negb (Property_truthy (get_property (devices st) key)) then
    let device :=
      {| Device.name := JS.or_else device_name (JS.Str ("Device-" +:+ key));
         Device.location := "Unknown";
         Device.registeredAt := now env;
         Device.autoRegistered := true |} in
    logConnection env req "INFO" ("New device registered: " +:+ key)
      (with_devices (<[key := device]> (devices st)) st)
  else st.

(** Lines 176 to 187: the entry; [device_meta] is [devices[device_id]]. *)
Definition create_entry (env : Env) (clientIP : option string)
    (device_id sensor ts : JS.value) (temp hum : JS.number)
    (device_meta : Property) : Entry.t :=
  {| Entry.id := JS.Number_toString (JS.of_Z (now env)) +:+ random_suffix env;
     Entry.device_id := device_id;
     Entry.device_meta := device_meta;
     Entry.sensor := sensor;
     Entry.temperature := temp;
     Entry.humidity := hum;
     Entry.timestamp := if JS.truthy ts then FromDevice ts else IsoString (now env);
     Entry.received_at := now env;
     Entry.client_ip := clientIP |}.

(** The [try] block. *)
Definition post_api_data_try (API_KEY : option string) (env : Env) (req : Request)
    (st : State) : Completion * State :=
  let apikey := x_api_key req in
  let clientIP := or_header (ip req) (remoteAddress req) in
  if negb (header_truthy apikey) then
    (Sent (mkResponse 401
             (Failure "Missing API key" "Include X-API-Key header with your request")),
     logConnection env req "ERROR" "Missing API key" st)
  else if negb (bool_decide (apikey = API_KEY)) then
    (Sent (mkResponse 401
             (Failure "Invalid API key" "The provided API key is not valid")),
     logConnection env req "ERROR" "Invalid API key" st)
  else
    match destructure (body req) with
    | inl type_error => (Thrown type_error, st)
    | inr field =>
        let device_id := field "device_id" in
        let device_name := field "device_name" in
        let sensor := field "sensor" in
        let temperature := field "temperature" in
        let humidity := field "humidity" in
        let ts := field "ts" in
        if negb (JS.truthy device_id) || negb (JS.truthy sensor)
           || JS.is_undefined temperature || JS.is_undefined humidity then
          (Sent (mkResponse 400 (MissingFields device_id sensor temperature humidity)),
           logConnection env req "ERROR" "Missing required fields" st)
        else
          match JS.parseFloat temperature with
          | None => (Thrown not_primitive, st)
          | Some temp =>
          match JS.parseFloat humidity with
          | None => (Thrown not_primitive, st)
          | Some hum =>
              if JS.isNaN temp || JS.isNaN hum then
                (Sent (mkResponse 400 (InvalidTypes temperature humidity)),
                 logConnection env req "ERROR" "Invalid data types" st)
              else
                let st1 := check_ranges env req temp hum st in
                (* the property key of [devices[device_id]] *)
                match JS.ToString device_id with
                | None => (Thrown not_primitive, st1)
                | Some key =>
                    let st2 := auto_register env req key device_name st1 in
                    let entry :=
                      create_entry env clientIP device_id sensor ts temp hum
                                   (get_property (devices st2) key) in
                    let st3 :=
                      with_sensorData (push_capped 1000 entry (sensorData st2)) st2 in
                    let st4 :=
                      logConnection env req "SUCCESS" ("Data received from " +:+ key) st3 in
                    (Sent (mkResponse 200
                             (Received (Entry.id entry) (Entry.device_id entry)
                                       (Entry.received_at entry))),
                     st4)
                end
          end
          end
    end.

(** The handler: the [try] block, and the [catch] that logs and answers 500. *)
Definition post_api_data (API_KEY : option string) (env : Env) (req : Request)
    (st : State) : Response * State :=
  match post_api_data_try API_KEY env req st with
  | (Sent r, st') => (r, st')
  | (Thrown message, st') =>
      (mkResponse 500 (Failure "Internal server error" "Please try again later"),
       logConnection env req "ERROR" ("Server error: " +:+ message) st')
  end.

(** ** The read handlers *)

(** [const { name = dflt } = req.query] *)
Definition query_param (req : Request) (name : string) (dflt : JS.value) : JS.value :=
  match JS.lookup_prop name (query req) with
  | JS.Undefined => dflt
  | v => v
  end.

(** [GET /api/devices] (lines 219 to 230) *)
Definition get_api_devices (st : State) : Response * State :=
  (mkResponse 200 (DeviceList (size (devices st)) (devices st)), st).

(** [GET /api/data] (lines 233 to 261) *)

(** Lines 237 to 242: the entries of [device_id] when the parameter is
    truthy, all of them otherwise. *)
Definition filter_by_device (device_id : JS.value) (sensorData : list Entry.t)
    : list Entry.t :=
  if JS.truthy device_id
  then List.filter (fun entry => JS.strict_eq (Entry.device_id entry) device_id)
                   sensorData
  else sensorData.

Definition get_api_data (req : Request) (st : State) : Response * State :=
  let device_id := JS.lookup_prop "device_id" (query req) in
  let limit := query_param req "limit" (JS.Num (JS.of_Z 50)) in
  let offset := query_param req "offset" (JS.Num (JS.of_Z 0)) in
  let filteredData := filter_by_device device_id (sensorData st) in
  match JS.parseInt offset with
  | None => (mkResponse 500 InternalError, st)
  | Some startIndex =>
      match JS.parseInt limit with
      | None => (mkResponse 500 InternalError, st)
      | Some parsed_limit =>
          let limitNum := JS.Math_min parsed_limit (Some 500%Z) in
          let paginatedData :=
            JS.slice filteredData startIndex (JS.add startIndex limitNum) in
          (mkResponse 200
             (DataPage (length filteredData) (length paginatedData)
                       startIndex limitNum (rev paginatedData)),
           st)
      end
  end.

(** [GET /api/logs] (lines 264 to 275); [slice(-50)] ends at the length. *)
Definition get_api_logs (st : State) : Response * State :=
  (mkResponse 200
     (LogPage (length (connectionLogs st))
              (rev (JS.slice (connectionLogs st) (Some (-50)%Z)
                             (Some (Z.of_nat (length (connectionLogs st))))))),
   st).

(** [GET /api/stats] (lines 278 to 308) *)
Definition get_api_stats (env : Env) (st : State) : Response * State :=
  let oneHourAgo := (now env - 60 * 60 * 1000)%Z in
  let oneDayAgo := (now env - 24 * 60 * 60 * 1000)%Z in
  let recentData :=
    List.filter (fun entry => (oneHourAgo <? Entry.received_at entry)%Z) (sensorData st) in
  let dailyData :=
    List.filter (fun entry => (oneDayAgo <? Entry.received_at entry)%Z) (sensorData st) in
  (mkResponse 200
     (Statistics (size (devices st)) (length (sensorData st))
                 (length recentData) (length dailyData) (last (sensorData st))),
   st).

(** ** [DELETE /api/data/cleanup] (lines 311 to 336) *)

(** [TimeClip]: a time value beyond 8.64e15 ms is an invalid date. *)
Definition TimeClip (t : Z) : option Z :=
  if (Z.abs t <=? 8640000000000000)%Z then Some t else None.

(** [cutoffDate.setDate(cutoffDate.getDate() - n)] on the current date: [n]
    days earlier (the server's time zone is taken without clock changes), an
    invalid date ([None]) when [n] is NaN or the result is out of range. *)
Definition days_before (t : Z) (n : option Z) : option Z :=
  match n with
  | Some d => TimeClip (t - d * 86400000)%Z
  | None => None
  end.

(** [new Date(received_at) > cutoffDate]; a comparison with an invalid date
    is false. *)
Definition after (received_at : Z) (cutoffDate : option Z) : bool :=
  match cutoffDate with
  | Some c => (c <? received_at)%Z
  | None => false
  end.

Definition delete_api_data_cleanup (env : Env) (req : Request) (st : State)
    : Response * State :=
  let days := query_param req "days" (JS.Num (JS.of_Z 7)) in
  match JS.parseInt days with
  | None => (mkResponse 500 InternalError, st)
  | Some n =>
      let cutoffDate := days_before (now env) n in
      let originalLength := length (sensorData st) in
      let filteredData :=
        List.filter (fun entry => after (Entry.received_at entry) cutoffDate)
                    (sensorData st) in
      let st' := with_sensorData ([] ++ filteredData) st in
      let deletedCount :=
        (Z.of_nat originalLength - Z.of_nat (length (sensorData st')))%Z in
      (mkResponse 200 (CleanedUp deletedCount days (length (sensorData st'))), st')
  end.

(** ** The other routes, and dispatch *)

(** The handler Express selects for a request.  [ErrorHandler] is the
    four-argument middleware (lines 356 to 364), reached when an earlier
    middleware fails, for instance on a body that is not JSON. *)
Inductive Route : Type :=
  | Root
  | HealthCheck
  | PostData
  | GetDevices
  | GetData
  | GetLogs
  | GetStats
  | Cleanup
  | NoRoute
  | ErrorHandler (err_message : string).

Definition handle (API_KEY : option string) (route : Route) (env : Env) (req : Request)
    (st : State) : Response * State :=
  match route with
  | Root => (mkResponse 200 ServiceInfo, st)
  | HealthCheck => (mkResponse 200 Health, st)
  | PostData => post_api_data API_KEY env req st
  | GetDevices => get_api_devices st
  | GetData => get_api_data req st
  | GetLogs => get_api_logs st
  | GetStats => get_api_stats env st
  | Cleanup => delete_api_data_cleanup env req st
  | NoRoute => (mkResponse 404 NotFound, st)
  | ErrorHandler err_message =>
      (mkResponse 500 (Failure "Internal server error" "Something went wrong on our end"),
       logConnection env req "ERROR" ("Unhandled error: " +:+ err_message) st)
  end.

(** A run of the server: the requests in the order they are handled. *)
Definition serve (API_KEY : option string) (requests : list (Route * Env * Request))
    (st : State) : State :=
  fold_left (fun s '(route, env, req) => snd (handle API_KEY route env req s))
            requests st.

(** ** Sample requests *)

Module Sample.

Definition secret : option string := Some "secret123".

Definition env0 : Env := {| now := 1700000000000; random_suffix := "k3j9x0q1z" |}.

Definition reading (device_id temperature humidity : JS.value) : JS.value :=
  JS.Obj [("device_id", device_id); ("sensor", JS.Str "dht11");
          ("temperature", temperature); ("humidity", humidity)].

Definition request (key : option string) (b : JS.value) : Request :=
  {| ip := Some "10.0.0.7"; remoteAddress := Some "10.0.0.7";
     user_agent := Some "ESP8266HTTPClient"; x_api_key := key;
     body := b; query := [] |}.

Definition t22_5 : JS.value := JS.Num (JS.Dec 225 (-1)).
Definition h55 : JS.value := JS.Num (JS.Dec 55 0).
Definition zero : JS.value := JS.Num (JS.Dec 0 0).

Definition st0 : State := initial_state 1699999000000.

(** A reading of device DEV1, sent with and without credentials. *)
Definition dev1 : JS.value := reading (JS.Str "DEV1") t22_5 h55.
Definition no_key : Request := request None dev1.
Definition empty_key : Request := request (Some "") dev1.
Definition wrong_key : Request := request (Some "wrong") dev1.
Definition right_key : Request := request secret dev1.

(** The same with an empty [device_id], and with a humidity that is no number. *)
Definition empty_id : Request := request secret (reading (JS.Str "") t22_5 h55).
Definition bad_humidity : Request :=
  request secret (reading (JS.Str "DEV1") t22_5 (JS.Str "wet")).

(** A reading of 0 degrees and 0 percent, stamped [ts = 0] by the device. *)
Definition zero_props : list (string * JS.value) :=
  [("device_id", JS.Str "DEV1"); ("sensor", JS.Str "dht11");
   ("temperature", zero); ("humidity", zero); ("ts", zero)].
Definition zero_ts : Request := request secret (JS.Obj zero_props).

(** An entry of [device] received at [t]. *)
Definition entry_at (t : Z) (device : string) : Entry.t :=
  create_entry {| now := t; random_suffix := "a1b2c3d4e" |}
    (Some "10.0.0.7") (JS.Str device) (JS.Str "dht11") JS.Undefined
    (JS.Dec 225 (-1)) (JS.Dec 55 0) Missing.

(** An entry received exactly seven days before [env0], and the state that
    holds it and one entry received a millisecond later. *)
Definition at_cutoff : Entry.t := entry_at 1699395200000 "DEV1".
Definition after_cutoff : Entry.t := entry_at 1699395200001 "DEV2".
Definition st_week : State := with_sensorData [at_cutoff; after_cutoff] st0.

(** Five entries, four of them of DEV1. *)
Definition st_five : State :=
  with_sensorData
    [entry_at 1699999100000 "DEV1"; entry_at 1699999200000 "DEV2";
     entry_at 1699999300000 "DEV1"; entry_at 1699999400000 "DEV1";
     entry_at 1699999500000 "DEV1"]
    st0.

(** [DELETE /api/data/cleanup] and [GET /api/data?device_id=DEV1&offset=1&limit=2]. *)
Definition cleanup_request : Request := request None JS.Undefined.
Definition page_request : Request :=
  {| ip := Some "10.0.0.9"; remoteAddress := Some "10.0.0.9";
     user_agent := Some "curl/8.5.0"; x_api_key := None; body := JS.Undefined;
     query := [("device_id", JS.Str "DEV1"); ("offset", JS.Str "1");
               ("limit", JS.Str "2")] |}.

(** A pre-registered device sends a reading under another name. *)
Definition renamed : Request :=
  request secret
    (JS.Obj [("device_id", JS.Str "DEADBEEF0001"); ("device_name", JS.Str "Renamed");
             ("sensor", JS.Str "dht11"); ("temperature", t22_5); ("humidity", h55)]).

End Sample.

(** ** Notions used in the statements *)

(** The records a stored submit logs before its SUCCESS record. *)
Definition range_warning (env : Env) (req : Request) (temp hum : JS.number)
    : list Log.t :=
  if outside_ranges temp hum
  then [make_log env req "WARNING" "Data outside expected ranges"]
  else [].

Definition registration_notice (env : Env) (req : Request)
    (devices : gmap string Device.t) (key : string) : list Log.t :=
  if Property_truthy (get_property devices key)
  then []
  else [make_log env req "INFO" ("New device registered: " +:+ key)].

(** A payload in the sense of the auth scenario: an object whose [device_id]
    and [sensor] are non-empty strings and whose [temperature] and [humidity]
    parse as numbers. *)
Definition parses_as_number (v : JS.value) : bool :=
  match JS.parseFloat v with
  | Some n => negb (JS.isNaN n)
  | None => false
  end.

Definition nonempty_string (v : JS.value) : bool :=
  match v with
  | JS.Str s => negb (String.eqb s "")
  | _ => false
  end.

Definition valid_payload (b : JS.value) : bool :=
  match b with
  | JS.Obj props =>
      nonempty_string (JS.lookup_prop "device_id" props)
      && nonempty_string (JS.lookup_prop "sensor" props)
      && parses_as_number (JS.lookup_prop "temperature" props)
      && parses_as_number (JS.lookup_prop "humidity" props)
  | _ => false
  end.

(** The digits of a decimal numeral, most significant first. *)
Fixpoint uint_digits (d : Decimal.uint) : list Z :=
  match d with
  | Decimal.Nil => []
  | Decimal.D0 d => 0%Z :: uint_digits d
  | Decimal.D1 d => 1%Z :: uint_digits d
  | Decimal.D2 d => 2%Z :: uint_digits d
  | Decimal.D3 d => 3%Z :: uint_digits d
  | Decimal.D4 d => 4%Z :: uint_digits d
  | Decimal.D5 d => 5%Z :: uint_digits d
  | Decimal.D6 d => 6%Z :: uint_digits d
  | Decimal.D7 d => 7%Z :: uint_digits d
  | Decimal.D8 d => 8%Z :: uint_digits d
  | Decimal.D9 d => 9%Z :: uint_digits d
  end.

(** The entry a submit appends to [sensorData], if it appends one. *)
Definition appended_by (API_KEY : option string) (env : Env) (req : Request)
    (st : State) : list Entry.t :=
  let '(r, st') := post_api_data API_KEY env req st in
  if status r =? 200
  then match last (sensorData st') with Some entry => [entry] | None => [] end
  else [].

(** A run of submits: the entries appended, in order, and the final state. *)
Fixpoint submit_all (API_KEY : option string) (submits : list (Env * Request))
    (st : State) : list Entry.t * State :=
  match submits with
  | [] => ([], st)
  | (env, req) :: rest =>
      let '(entries, final) :=
        submit_all API_KEY rest (snd (post_api_data API_KEY env req st)) in
      (appended_by API_KEY env req st ++ entries, final)
  end.

(** Both buffers are within their capacity. *)
Definition within_capacity (st : State) : Prop :=
  length (sensorData st) <= 1000 /\ length (connectionLogs st) <= 100.

(** ** The variant backed by a database ([src/DHT_HTTP_POST/server.js],
    lines 41 to 76 of the file) *)

Module Stored.

(** A call [pool.query(sql, params)]. *)
Record Query : Type := mkQuery {
  sql : string;
  params : list JS.value
}.

(** What the awaited call gives: the rows of the result, or a rejection. *)
Inductive Result : Type :=
  | Rows (rows : list JS.value)
  | Rejected (message : string).

(** The JSON documents of this variant. *)
Inductive Answer : Type :=
  | Problem (error : string)
  | StoredRow (response : string) (stored : JS.value)
  | AllRows (rows : list JS.value).


Definition select_sql : string :=
  "SELECT * FROM dht11_data ORDER BY created_at DESC".



(** [GET /api/get-data] *)
Definition get_data (pool : Query -> Result) : nat * Answer * list Query :=
  let query := mkQuery select_sql [] in
  match pool query with
  | Rows rows => (200, AllRows rows, [query])
  | Rejected _ => (500, Problem "Failed to fetch data", [query])
  end.



End Stored.

(** The number of submits of a run that are answered 200. *)
Fixpoint accepted (API_KEY : option string) (submits : list (Env * Request))
    (st : State) : nat :=
  match submits with
  | [] => 0
  | (env, req) :: rest =>
      let '(r, st') := post_api_data API_KEY env req st in
      (if status r =? 200 then 1 else 0) + accepted API_KEY rest st'
  end.

(** A sequence of calls [logConnection(req, status, message)], each at its
    instant, and the records they make. *)
Definition log_all (calls : list (Env * Request * string * string)) (st : State)
    : State :=
  fold_left (fun s '(env, req, status, message) =>
               logConnection env req status message s)
            calls st.

Definition record_of (call : Env * Request * string * string) : Log.t :=
  let '(env, req, status, message) := call in make_log env req status message.

(** ** Invariants of the stores *)

(** No property name of [Object.prototype] is a key of [devices]. *)
Definition plain_keys (st : State) : Prop :=
  forall key, existsb (String.eqb key) Object_prototype_keys = true ->
              devices st !! key = None.

(** The numbers of an entry are numbers. *)
Definition is_reading (e : Entry.t) : Prop :=
  JS.isNaN (Entry.temperature e) = false /\ JS.isNaN (Entry.humidity e) = false.

(** The device an entry refers to is the device that [devices] holds under
    the property key of the entry's [device_id]. *)
Definition refers_to_registry (devices : gmap string Device.t) (e : Entry.t) : Prop :=
  match Entry.device_meta e with
  | Own d => exists key, JS.ToString (Entry.device_id e) = Some key /\
                         devices !! key = Some d
  | Inherited | Missing => True
  end.

(** ** Further sample requests *)

Module Scenario.

(** A query with the given parameters. *)
Definition get (params : list (string * JS.value)) : Request :=
  {| ip := Some "10.0.0.9"; remoteAddress := Some "10.0.0.9";
     user_agent := Some "curl/8.5.0"; x_api_key := None; body := JS.Undefined;
     query := params |}.

(** Half an hour after [Sample.env0]. *)
Definition later : Env := {| now := 1700001800000; random_suffix := "q7w8e9r0t" |}.

(** [GET /api/data?limit=-1] and [GET /api/data?offset=abc]. *)
Definition all_but_newest : Request := get [("limit", JS.Str "-1")].
Definition unreadable_offset : Request := get [("offset", JS.Str "abc")].

(** [GET /api/data?device_id=DEV1] *)
Definition of_dev1 : Request := get [("device_id", JS.Str "DEV1")].

(** A device that calls itself [constructor]. *)
Definition constructor_props : list (string * JS.value) :=
  [("device_id", JS.Str "constructor"); ("sensor", JS.Str "dht11");
   ("temperature", Sample.t22_5); ("humidity", Sample.h55)].
Definition constructor_device : Request :=
  Sample.request Sample.secret (JS.Obj constructor_props).

(** The fields of [Sample.dev1]. *)
Definition dev1_props : list (string * JS.value) :=
  [("device_id", JS.Str "DEV1"); ("sensor", JS.Str "dht11");
   ("temperature", Sample.t22_5); ("humidity", Sample.h55)].

(** A reading outside the ranges whose [device_id] cannot be converted to a
    property key. *)
Definition unconvertible_props : list (string * JS.value) :=
  [("device_id", JS.Obj [("toString", JS.Null)]); ("sensor", JS.Str "dht11");
   ("temperature", JS.Num (JS.Dec 200 0)); ("humidity", Sample.h55)].
Definition unconvertible_id : Request :=
  Sample.request Sample.secret (JS.Obj unconvertible_props).

End Scenario.

(** * Properties *)

(** ** The built-ins on sample arguments *)

Example parseFloat_examples :
  JS.parseFloat (JS.Num (JS.Dec 0 0)) = Some (JS.Dec 0 0) /\
  JS.parseFloat (JS.Str "  -22.50e1abc") = Some (JS.Dec (-2250) (-1)) /\
  JS.parseFloat (JS.Str ".5") = Some (JS.Dec 5 (-1)) /\
  JS.parseFloat (JS.Str "abc") = Some JS.NaN /\
  JS.parseFloat JS.Null = Some JS.NaN /\
  JS.parseFloat (JS.Arr [JS.Num (JS.Dec 225 (-1)); JS.Null]) = Some (JS.Dec 225 (-1)) /\
  JS.parseFloat (JS.Obj [("toString", JS.Null)]) = None.
Proof. repeat split; reflexivity. Qed.

Example Number_toString_examples :
  JS.Number_toString (JS.Dec 225 (-1)) = "22.5" /\
  JS.Number_toString (JS.Dec 1500 (-3)) = "1.5" /\
  JS.Number_toString (JS.Dec 1 21) = "1e+21" /\
  JS.Number_toString (JS.Dec 12 20) = "1.2e+21" /\
  JS.Number_toString (JS.Dec 1 (-6)) = "0.000001" /\
  JS.Number_toString (JS.Dec (-15) (-8)) = "-1.5e-7" /\
  JS.Number_toString (JS.Dec 1700000000000 0) = "1700000000000".
Proof. repeat split; reflexivity. Qed.

Example parseInt_examples :
  JS.parseInt (JS.Str "10") = Some (Some 10%Z) /\
  JS.parseInt (JS.Str " -7days") = Some (Some (-7)%Z) /\
  JS.parseInt (JS.Str "0x1F") = Some (Some 31%Z) /\
  JS.parseInt (JS.Str "abc") = Some None /\
  JS.parseInt (JS.Num (JS.Dec 50 0)) = Some (Some 50%Z) /\
  JS.parseInt JS.Undefined = Some None.
Proof. repeat split; reflexivity. Qed.

Example slice_examples :
  JS.slice [1; 2; 3; 4; 5] (Some 1%Z) (Some 3%Z) = [2; 3] /\
  JS.slice [1; 2; 3; 4; 5] (Some (-2)%Z) (Some 10%Z) = [4; 5] /\
  JS.slice [1; 2; 3; 4; 5] (Some 7%Z) (Some 9%Z) = [] /\
  JS.slice [1; 2; 3; 4; 5] None None = [].
Proof. repeat split; reflexivity. Qed.

(** ** Bounded buffers: [push] followed by one [shift] *)

Section PushCapped.

Context {A : Type}.
Implicit Types (l xs : list A) (x : A) (cap : nat).

Lemma tail_drop l : tail l = drop 1 l.
Proof. destruct l; reflexivity. Qed.

Lemma push_capped_drop cap x l :
  length l <= cap ->
  push_capped cap x l = drop (length (l ++ [x]) - cap) (l ++ [x]).
Proof.
  intros Hlen. unfold push_capped.
  assert (Hsz : length (l ++ [x]) = S (length l))
    by (rewrite length_app; simpl; lia).
  destruct (Nat.ltb_spec cap (length (l ++ [x]))) as [Hfull | Hroom].
  - replace (length (l ++ [x]) - cap) with 1 by lia. apply tail_drop.
  - replace (length (l ++ [x]) - cap) with 0 by lia. reflexivity.
Qed.

Lemma push_capped_length cap x l :
  length l <= cap -> length (push_capped cap x l) <= cap.
Proof.
  intros Hlen. rewrite push_capped_drop by assumption.
  rewrite length_drop, length_app. simpl. lia.
Qed.

Lemma push_capped_last cap x l :
  0 < cap -> last (push_capped cap x l) = Some x.
Proof.
  intros Hpos. unfold push_capped.
  destruct (Nat.ltb_spec cap (length (l ++ [x]))) as [Hfull | Hroom].
  - destruct l as [| y l']; simpl in *; [lia |].
    apply last_snoc.
  - apply last_snoc.
Qed.

Lemma push_all_snoc cap xs x l :
  push_all cap (xs ++ [x]) l = push_capped cap x (push_all cap xs l).
Proof. unfold push_all. rewrite fold_left_app. reflexivity. Qed.

Lemma push_all_drop cap xs l :
  length l <= cap ->
  push_all cap xs l = drop (length (l ++ xs) - cap) (l ++ xs).
Proof.
  intros Hlen. induction xs as [| x xs IH] using rev_ind.
  - simpl. rewrite app_nil_r.
    replace (length l - cap) with 0 by lia. reflexivity.
  - rewrite push_all_snoc, IH.
    set (L := l ++ xs).
    assert (HD : length (drop (length L - cap) L) <= cap)
      by (rewrite length_drop; lia).
    rewrite push_capped_drop by exact HD.
    rewrite length_app, length_drop. simpl.
    replace (l ++ xs ++ [x]) with (L ++ [x]) by (unfold L; rewrite app_assoc; reflexivity).
    rewrite length_app. simpl.
    destruct (Nat.le_gt_cases (length L) cap) as [Hroom | Hfull].
    + replace (length L - cap) with 0 by lia. simpl.
      f_equal. lia.
    + replace (length L - (length L - cap) + 1 - cap) with 1 by lia.
      replace (length L + 1 - cap) with ((length L - cap) + 1) by lia.
      rewrite <- drop_drop. f_equal.
      rewrite drop_app_le by lia. reflexivity.
Qed.

Lemma push_all_length cap xs l :
  length l <= cap -> length (push_all cap xs l) = min (length l + length xs) cap.
Proof.
  intros Hlen. rewrite push_all_drop by assumption.
  rewrite length_drop, length_app. lia.
Qed.

End PushCapped.

(** ** The paths of [POST /api/data] *)

(** Case analysis on the conditions the handler tests, in the order it tests
    them; [H] is an equation [post_api_data _ _ _ _ = (r, st')]. *)
Ltac handler_paths H :=
  unfold post_api_data in H;
  let Htry := fresh "Htry" in
  destruct (post_api_data_try _ _ _ _) as [? ?] eqn:Htry in H;
  unfold post_api_data_try in Htry; cbv zeta in Htry;
  repeat match type of Htry with
         | context [if ?b then _ else _] => destruct b eqn:?
         | context [match ?x with _ => _ end] => destruct x eqn:?
         end;
  inversion Htry; subst; clear Htry;
  cbv beta iota in H; inversion H; subst; clear H.

Lemma logConnection_devices env req s m st :
  devices (logConnection env req s m st) = devices st.
Proof. reflexivity. Qed.

Lemma logConnection_sensorData env req s m st :
  sensorData (logConnection env req s m st) = sensorData st.
Proof. reflexivity. Qed.

Lemma logConnection_connectionLogs env req s m st :
  connectionLogs (logConnection env req s m st)
  = push_capped 100 (make_log env req s m) (connectionLogs st).
Proof. reflexivity. Qed.

(** C9: a submit answered 401 or 400 leaves [sensorData] and [devices] as
    they were; the one change of state is one ERROR record pushed on
    [connectionLogs]. *)
Theorem failed_submit_only_logs API_KEY env req st r st' :
  post_api_data API_KEY env req st = (r, st') ->
  status r = 401 \/ status r = 400 ->
  sensorData st' = sensorData st /\
  devices st' = devices st /\
  exists message,
    connectionLogs st'
    = push_capped 100 (make_log env req "ERROR" message) (connectionLogs st).
Proof.
  intros H Hstatus.
  handler_paths H; simpl in Hstatus;
    try (exfalso; destruct Hstatus; discriminate);
    repeat split; eexists; reflexivity.
Qed.

Lemma failed_submit_only_logs_witness :
  (status (fst (post_api_data Sample.secret Sample.env0 Sample.bad_humidity Sample.st0)) = 401
   \/ status (fst (post_api_data Sample.secret Sample.env0 Sample.bad_humidity Sample.st0)) = 400) /\
  sensorData (snd (post_api_data Sample.secret Sample.env0 Sample.bad_humidity Sample.st0))
  = sensorData Sample.st0 /\
  devices (snd (post_api_data Sample.secret Sample.env0 Sample.bad_humidity Sample.st0))
  = devices Sample.st0 /\
  exists message,
    connectionLogs (snd (post_api_data Sample.secret Sample.env0 Sample.bad_humidity Sample.st0))
    = push_capped 100 (make_log Sample.env0 Sample.bad_humidity "ERROR" message)
                  (connectionLogs Sample.st0).
Proof.
  split; [right; reflexivity |].
  apply (failed_submit_only_logs Sample.secret Sample.env0 Sample.bad_humidity Sample.st0
           _ _ (surjective_pairing _)).
  right; reflexivity.
Defined.

(** ** Authentication *)

Lemma header_truthy_Some key : header_truthy (Some key) = true -> key <> "".
Proof. simpl. intros H ->. discriminate. Qed.

Lemma missing_key_rejected API_KEY env req st :
  header_truthy (x_api_key req) = false ->
  post_api_data API_KEY env req st
  = (mkResponse 401 (Failure "Missing API key" "Include X-API-Key header with your request"),
     logConnection env req "ERROR" "Missing API key" st).
Proof.
  intros Hmissing. unfold post_api_data, post_api_data_try.
  rewrite Hmissing. reflexivity.
Qed.

Lemma invalid_key_rejected API_KEY env req st :
  header_truthy (x_api_key req) = true ->
  x_api_key req <> API_KEY ->
  post_api_data API_KEY env req st
  = (mkResponse 401 (Failure "Invalid API key" "The provided API key is not valid"),
     logConnection env req "ERROR" "Invalid API key" st).
Proof.
  intros Hpresent Hne. unfold post_api_data, post_api_data_try.
  rewrite Hpresent. rewrite bool_decide_eq_false_2 by assumption. reflexivity.
Qed.

Lemma parses_as_number_Some v :
  parses_as_number v = true ->
  exists n, JS.parseFloat v = Some n /\ JS.isNaN n = false /\ JS.is_undefined v = false.
Proof.
  unfold parses_as_number. intros H.
  destruct (JS.parseFloat v) as [n |] eqn:Hn; [| discriminate].
  exists n. split; [reflexivity |]. split; [apply negb_true_iff, H |].
  destruct v; try reflexivity.
  vm_compute in Hn. injection Hn as <-. discriminate H.
Qed.

Lemma nonempty_string_truthy v :
  nonempty_string v = true ->
  JS.truthy v = true /\ exists key, JS.ToString v = Some key.
Proof.
  destruct v; try discriminate. simpl. intros H. split; [exact H | eauto].
Qed.

Lemma valid_payload_accepted API_KEY env req st :
  header_truthy (x_api_key req) = true ->
  x_api_key req = API_KEY ->
  valid_payload (body req) = true ->
  status (fst (post_api_data API_KEY env req st)) = 200.
Proof.
  intros Hpresent Heq Hvalid.
  unfold valid_payload in Hvalid.
  destruct (body req) as [| | | | | | props] eqn:Hbody; try discriminate.
  apply andb_prop in Hvalid as [Hvalid Hhum].
  apply andb_prop in Hvalid as [Hvalid Htemp].
  apply andb_prop in Hvalid as [Hid Hsensor].
  apply nonempty_string_truthy in Hid as [Hid [key Hkey]].
  apply nonempty_string_truthy in Hsensor as [Hsensor _].
  apply parses_as_number_Some in Htemp as [temp [Htemp [Htn Htu]]].
  apply parses_as_number_Some in Hhum as [hum [Hhum [Hhn Hhu]]].
  unfold post_api_data, post_api_data_try.
  rewrite Hpresent, Hbody. rewrite bool_decide_eq_true_2 by assumption.
  cbn [negb destructure].
  rewrite Hid, Hsensor, Htu, Hhu. cbn [negb orb].
  rewrite Htemp, Hhum, Htn, Hhn, Hkey. reflexivity.
Qed.

(** C1, as stated, fails: with no key configured the process exits at
    start-up, and the handler itself, run with [API_KEY] undefined, still
    answers 401 to a submit without credential. *)
Lemma open_mode_counterexample :
  x_api_key Sample.no_key = None /\
  startup None 1699999000000 = inl 1 /\
  fst (post_api_data None Sample.env0 Sample.no_key Sample.st0)
  = mkResponse 401 (Failure "Missing API key" "Include X-API-Key header with your request").
Proof. repeat split. Qed.

(** C1, amended: there is no open mode.  A deployment whose [API_KEY] is
    unset or empty exits at start-up with code 1; and whatever [API_KEY] is,
    a submit with no credential (or an empty one) is answered 401
    "Missing API key", for every payload, with that one ERROR record logged
    and nothing else changed. *)
Theorem shared_secret_required :
  (forall API_KEY started,
     header_truthy API_KEY = false -> startup API_KEY started = inl 1) /\
  (forall API_KEY env req st,
     header_truthy (x_api_key req) = false ->
     post_api_data API_KEY env req st
     = (mkResponse 401 (Failure "Missing API key" "Include X-API-Key header with your request"),
        logConnection env req "ERROR" "Missing API key" st)).
Proof.
  split.
  - intros API_KEY started Hunset. unfold startup. rewrite Hunset. reflexivity.
  - intros. apply missing_key_rejected. assumption.
Qed.

Lemma shared_secret_required_witness :
  header_truthy None = false /\
  startup None 1699999000000 = inl 1 /\
  header_truthy (x_api_key Sample.no_key) = false /\
  post_api_data None Sample.env0 Sample.no_key Sample.st0
  = (mkResponse 401 (Failure "Missing API key" "Include X-API-Key header with your request"),
     logConnection Sample.env0 Sample.no_key "ERROR" "Missing API key" Sample.st0).
Proof.
  split; [reflexivity |].
  split; [apply (proj1 shared_secret_required None 1699999000000%Z); reflexivity |].
  split; [reflexivity |].
  apply (proj2 shared_secret_required None Sample.env0 Sample.no_key Sample.st0).
  reflexivity.
Defined.

(** C7, as stated, fails for a credential that is present and empty: the
    header [X-API-Key] sent with an empty value differs from the secret, and
    the answer is "Missing API key", not "Invalid API key". *)
Lemma empty_credential_counterexample :
  x_api_key Sample.empty_key = Some "" /\
  x_api_key Sample.empty_key <> Sample.secret /\
  post_api_data Sample.secret Sample.env0 Sample.empty_key Sample.st0
  = (mkResponse 401 (Failure "Missing API key" "Include X-API-Key header with your request"),
     logConnection Sample.env0 Sample.empty_key "ERROR" "Missing API key" Sample.st0).
Proof. repeat split. discriminate. Qed.

(** C7, amended: with a secret configured (a non-empty [API_KEY]), a submit
    with no credential or an empty one is answered 401 and logs ERROR
    "Missing API key"; a submit whose credential is not empty and differs from
    the secret is answered 401 and logs ERROR "Invalid API key"; both for
    every payload, valid or not, and with no other change of state (the check
    comes first and ends the call); a submit with the secret itself and a
    valid payload is answered 200. *)
Theorem auth_check key env req st :
  header_truthy (Some key) = true ->
  (header_truthy (x_api_key req) = false ->
   post_api_data (Some key) env req st
   = (mkResponse 401 (Failure "Missing API key" "Include X-API-Key header with your request"),
      logConnection env req "ERROR" "Missing API key" st)) /\
  (header_truthy (x_api_key req) = true ->
   x_api_key req <> Some key ->
   post_api_data (Some key) env req st
   = (mkResponse 401 (Failure "Invalid API key" "The provided API key is not valid"),
      logConnection env req "ERROR" "Invalid API key" st)) /\
  (x_api_key req = Some key ->
   valid_payload (body req) = true ->
   status (fst (post_api_data (Some key) env req st)) = 200).
Proof.
  intros Hconfigured. repeat split.
  - apply missing_key_rejected.
  - apply invalid_key_rejected.
  - intros Hkey Hvalid. apply valid_payload_accepted; try assumption.
    rewrite Hkey. exact Hconfigured.
Qed.

Lemma auth_check_witness :
  header_truthy Sample.secret = true /\
  fst (post_api_data Sample.secret Sample.env0 Sample.no_key Sample.st0)
  = mkResponse 401 (Failure "Missing API key" "Include X-API-Key header with your request") /\
  fst (post_api_data Sample.secret Sample.env0 Sample.wrong_key Sample.st0)
  = mkResponse 401 (Failure "Invalid API key" "The provided API key is not valid") /\
  status (fst (post_api_data Sample.secret Sample.env0 Sample.right_key Sample.st0)) = 200.
Proof.
  change Sample.secret with (Some "secret123").
  split; [reflexivity |].
  split.
  { rewrite (proj1 (auth_check "secret123" Sample.env0 Sample.no_key Sample.st0 eq_refl)
               eq_refl).
    reflexivity. }
  split.
  { rewrite (proj1 (proj2 (auth_check "secret123" Sample.env0 Sample.wrong_key Sample.st0
                             eq_refl))).
    - reflexivity.
    - reflexivity.
    - discriminate. }
  apply (proj2 (proj2 (auth_check "secret123" Sample.env0 Sample.right_key Sample.st0
                         eq_refl))); reflexivity.
Defined.

(** ** The bounded stores *)

Lemma push_all_app {A : Type} cap (xs ys l : list A) :
  push_all cap (xs ++ ys) l = push_all cap ys (push_all cap xs l).
Proof. unfold push_all. apply fold_left_app. Qed.

Lemma push_all_from_empty {A : Type} cap (xs : list A) :
  length (push_all cap xs []) = min (length xs) cap /\
  push_all cap xs [] = drop (length xs - cap) xs.
Proof.
  split.
  - rewrite push_all_length by (simpl; lia). reflexivity.
  - rewrite push_all_drop by (simpl; lia). reflexivity.
Qed.

(** ** What a submit logs *)

Lemma check_ranges_logs env req temp hum st :
  connectionLogs (check_ranges env req temp hum st)
  = push_all 100 (range_warning env req temp hum) (connectionLogs st).
Proof.
  unfold check_ranges, range_warning.
  destruct (outside_ranges temp hum); reflexivity.
Qed.

Lemma check_ranges_devices env req temp hum st :
  devices (check_ranges env req temp hum st) = devices st.
Proof. unfold check_ranges. destruct (outside_ranges temp hum); reflexivity. Qed.

Lemma check_ranges_sensorData env req temp hum st :
  sensorData (check_ranges env req temp hum st) = sensorData st.
Proof. unfold check_ranges. destruct (outside_ranges temp hum); reflexivity. Qed.

Lemma auto_register_logs env req key device_name st :
  connectionLogs (auto_register env req key device_name st)
  = push_all 100 (registration_notice env req (devices st) key) (connectionLogs st).
Proof.
  unfold auto_register, registration_notice.
  destruct (Property_truthy (get_property (devices st) key)); reflexivity.
Qed.

Lemma auto_register_sensorData env req key device_name st :
  sensorData (auto_register env req key device_name st) = sensorData st.
Proof.
  unfold auto_register.
  destruct (Property_truthy (get_property (devices st) key)); reflexivity.
Qed.

Lemma range_warning_length env req temp hum :
  length (range_warning env req temp hum) <= 1.
Proof. unfold range_warning. destruct (outside_ranges temp hum); simpl; lia. Qed.

Lemma registration_notice_length env req d key :
  length (registration_notice env req d key) <= 1.
Proof.
  unfold registration_notice.
  destruct (Property_truthy (get_property d key)); simpl; lia.
Qed.

(** C2, as stated, fails: the first reading of a device that is not in the
    registry logs two records, INFO for the registration and SUCCESS. *)
Lemma one_record_counterexample :
  connectionLogs Sample.st0 = [] /\
  connectionLogs (snd (post_api_data Sample.secret Sample.env0 Sample.right_key Sample.st0))
  = [make_log Sample.env0 Sample.right_key "INFO" "New device registered: DEV1";
     make_log Sample.env0 Sample.right_key "SUCCESS" "Data received from DEV1"] /\
  ~ (exists record,
       connectionLogs (snd (post_api_data Sample.secret Sample.env0 Sample.right_key
                              Sample.st0))
       = connectionLogs Sample.st0 ++ [record]).
Proof.
  split; [reflexivity |]. split; [reflexivity |].
  intros [record H]. apply (f_equal length) in H. discriminate H.
Qed.

(** C2, amended: every submit pushes on [connectionLogs] one outcome record,
    last: SUCCESS when the answer is 200, ERROR otherwise.  A submit answered
    401 or 400 pushes nothing else.  A submit answered 200 pushes before it
    one WARNING record when a value is outside the expected ranges and one
    INFO record when it registers the device; so a call pushes one to three
    records. *)
Theorem submit_log_records API_KEY env req st r st' :
  post_api_data API_KEY env req st = (r, st') ->
  exists extra message,
    connectionLogs st'
    = push_all 100
        (extra ++ [make_log env req (if status r =? 200 then "SUCCESS" else "ERROR") message])
        (connectionLogs st) /\
    length extra <= 2 /\
    (status r = 401 \/ status r = 400 -> extra = []) /\
    (status r = 200 ->
     exists field temp hum key,
       destructure (body req) = inr field /\
       JS.parseFloat (field "temperature") = Some temp /\
       JS.parseFloat (field "humidity") = Some hum /\
       JS.ToString (field "device_id") = Some key /\
       extra = range_warning env req temp hum
               ++ registration_notice env req (devices st) key).
Proof.
  intros H. handler_paths H; cbn [status Nat.eqb];
    try (eexists [], _; split; [reflexivity |]; split; [simpl; lia |];
         split; [intros _; reflexivity | intros Hs; discriminate Hs]).
  - (* stored *)
    match goal with
    | Ht : JS.parseFloat _ = Some ?temp, Hh : JS.parseFloat _ = Some ?hum,
      Hk : JS.ToString _ = Some ?key |- _ =>
        pose proof (range_warning_length env req temp hum);
        pose proof (registration_notice_length env req (devices st) key);
        exists (range_warning env req temp hum
                ++ registration_notice env req (devices st) key),
               ("Data received from " +:+ key);
        repeat split;
        [ | rewrite length_app; lia | intros [Hs | Hs]; discriminate Hs
          | intros _; eexists _, temp, hum, key; repeat split; eassumption ]
    end.
    rewrite logConnection_connectionLogs. cbn [connectionLogs with_sensorData].
    rewrite auto_register_logs, check_ranges_logs, check_ranges_devices.
    rewrite !push_all_app. reflexivity.
  - (* the property key of [devices[device_id]] throws *)
    match goal with
    | Ht : JS.parseFloat _ = Some ?temp, Hh : JS.parseFloat _ = Some ?hum |- _ =>
        pose proof (range_warning_length env req temp hum);
        exists (range_warning env req temp hum),
               ("Server error: " +:+ not_primitive);
        repeat split;
        [ | lia | intros [Hs | Hs]; discriminate Hs | intros Hs; discriminate Hs ]
    end.
    rewrite logConnection_connectionLogs, check_ranges_logs.
    rewrite push_all_app. reflexivity.
Qed.

Lemma submit_log_records_witness :
  let out := post_api_data Sample.secret Sample.env0 Sample.right_key Sample.st0 in
  out = (fst out, snd out) /\
  exists extra message,
    connectionLogs (snd out)
    = push_all 100
        (extra ++ [make_log Sample.env0 Sample.right_key
                     (if status (fst out) =? 200 then "SUCCESS" else "ERROR") message])
        (connectionLogs Sample.st0) /\
    length extra <= 2 /\
    (status (fst out) = 401 \/ status (fst out) = 400 -> extra = []) /\
    (status (fst out) = 200 ->
     exists field temp hum key,
       destructure (body Sample.right_key) = inr field /\
       JS.parseFloat (field "temperature") = Some temp /\
       JS.parseFloat (field "humidity") = Some hum /\
       JS.ToString (field "device_id") = Some key /\
       extra = range_warning Sample.env0 Sample.right_key temp hum
               ++ registration_notice Sample.env0 Sample.right_key
                    (devices Sample.st0) key).
Proof.
  intros out. split; [apply surjective_pairing |].
  exact (submit_log_records Sample.secret Sample.env0 Sample.right_key Sample.st0
           (fst out) (snd out) (surjective_pairing out)).
Defined.

(** ** Validation of the payload *)

Lemma is_undefined_true v : JS.is_undefined v = true <-> v = JS.Undefined.
Proof. destruct v; simpl; split; congruence. Qed.

Lemma isNaN_true n : JS.isNaN n = true <-> n = JS.NaN.
Proof. destruct n; simpl; split; congruence. Qed.

Lemma missing_fields_iff (device_id sensor temperature humidity : JS.value) :
  negb (JS.truthy device_id) || negb (JS.truthy sensor)
  || JS.is_undefined temperature || JS.is_undefined humidity = true
  <-> JS.truthy device_id = false \/ JS.truthy sensor = false
      \/ temperature = JS.Undefined \/ humidity = JS.Undefined.
Proof.
  rewrite !orb_true_iff, !negb_true_iff, !is_undefined_true. tauto.
Qed.

Lemma parseFloat_zero e : JS.parseFloat (JS.Num (JS.Dec 0 e)) = Some (JS.Dec 0 0).
Proof. reflexivity. Qed.

(** C6, as stated, fails: a payload in which all four fields are present
    and both numbers parse, but whose [device_id] is the empty string, is
    answered 400 "Missing required fields". *)
Lemma present_fields_counterexample :
  body Sample.empty_id
  = JS.Obj [("device_id", JS.Str ""); ("sensor", JS.Str "dht11");
            ("temperature", Sample.t22_5); ("humidity", Sample.h55)] /\
  parses_as_number Sample.t22_5 = true /\
  parses_as_number Sample.h55 = true /\
  post_api_data Sample.secret Sample.env0 Sample.empty_id Sample.st0
  = (mkResponse 400 (MissingFields (JS.Str "") (JS.Str "dht11") Sample.t22_5 Sample.h55),
     logConnection Sample.env0 Sample.empty_id "ERROR" "Missing required fields" Sample.st0).
Proof. repeat split. Qed.

(** C6, amended: for a submit that passed the auth check and whose body can
    be destructured, the answer is 400 (with one ERROR record logged and
    nothing else changed) if and only if [device_id] or [sensor] is falsy
    (missing, or present as the empty string, 0, [null] or [false]), or
    [temperature] or [humidity] is missing, or both are converted by
    [parseFloat] and one of the results is NaN.  A [temperature] and a
    [humidity] equal to 0 are neither missing nor NaN. *)
Theorem invalid_payload_iff API_KEY env req st r st' field :
  header_truthy (x_api_key req) = true ->
  x_api_key req = API_KEY ->
  destructure (body req) = inr field ->
  post_api_data API_KEY env req st = (r, st') ->
  (status r = 400 <->
   JS.truthy (field "device_id") = false \/ JS.truthy (field "sensor") = false
   \/ field "temperature" = JS.Undefined \/ field "humidity" = JS.Undefined
   \/ exists temp hum,
        JS.parseFloat (field "temperature") = Some temp /\
        JS.parseFloat (field "humidity") = Some hum /\
        (temp = JS.NaN \/ hum = JS.NaN)) /\
  (status r = 400 -> exists message, st' = logConnection env req "ERROR" message st) /\
  (forall e1 e2,
     JS.truthy (field "device_id") = true -> JS.truthy (field "sensor") = true ->
     field "temperature" = JS.Num (JS.Dec 0 e1) ->
     field "humidity" = JS.Num (JS.Dec 0 e2) ->
     status r <> 400).
Proof.
  intros Hpresent Hkey Hfield H.
  unfold post_api_data, post_api_data_try in H.
  rewrite Hpresent, Hfield in H.
  rewrite bool_decide_eq_true_2 in H by assumption.
  cbn [negb] in H. cbv zeta in H.
  destruct (negb (JS.truthy (field "device_id")) || _ || _ || _) eqn:Hmissing.
  { (* a field is missing *)
    injection H as <- <-. cbn [status].
    apply missing_fields_iff in Hmissing.
    split; [split; [intros _; tauto | reflexivity] |].
    split; [intros _; eexists; reflexivity |].
    intros e1 e2 Hid Hsensor Htemp Hhum.
    rewrite Htemp, Hhum in Hmissing.
    destruct Hmissing as [? | [? | [? | ?]]]; congruence. }
  assert (Hpresent4 :
            ~ (JS.truthy (field "device_id") = false \/ JS.truthy (field "sensor") = false
               \/ field "temperature" = JS.Undefined \/ field "humidity" = JS.Undefined)).
  { intros Hm. apply missing_fields_iff in Hm. congruence. }
  destruct (JS.parseFloat (field "temperature")) as [temp |] eqn:Htemp.
  2: { (* [parseFloat(temperature)] throws *)
    injection H as <- <-. cbn [status].
    split; [split; [discriminate |] |].
    - intros [? | [? | [? | [? | (t & h & Ht & _)]]]];
        [exfalso; tauto .. | discriminate Ht].
    - split; [discriminate |].
      intros e1 e2 _ _ Ht _. rewrite Ht, parseFloat_zero in Htemp. discriminate. }
  destruct (JS.parseFloat (field "humidity")) as [hum |] eqn:Hhum.
  2: { (* [parseFloat(humidity)] throws *)
    injection H as <- <-. cbn [status].
    split; [split; [discriminate |] |].
    - intros [? | [? | [? | [? | (t & h & _ & Hh & _)]]]];
        [exfalso; tauto .. | discriminate Hh].
    - split; [discriminate |].
      intros e1 e2 _ _ _ Hh. rewrite Hh, parseFloat_zero in Hhum. discriminate. }
  destruct (JS.isNaN temp || JS.isNaN hum) eqn:Hnan.
  { (* not numbers *)
    injection H as <- <-. cbn [status].
    apply orb_true_iff in Hnan. rewrite !isNaN_true in Hnan.
    split; [split; [intros _ | reflexivity] |].
    - do 4 right. exists temp, hum. tauto.
    - split; [intros _; eexists; reflexivity |].
      intros e1 e2 _ _ Ht Hh.
      rewrite Ht, parseFloat_zero in Htemp. rewrite Hh, parseFloat_zero in Hhum.
      destruct Hnan; congruence. }
  (* validation passed: the answer is 200 or 500 *)
  apply orb_false_iff in Hnan as [Htn Hhn].
  assert (Hnot400 : status r <> 400).
  { destruct (JS.ToString (field "device_id")); injection H as <- <-; discriminate. }
  split; [split; [intros; contradiction |] |].
  - intros [? | [? | [? | [? | (t & h & Ht & Hh & Hn)]]]]; [exfalso; tauto .. |].
    exfalso. injection Ht as <-. injection Hh as <-.
    destruct Hn as [-> | ->]; discriminate.
  - split; [intros; contradiction | intros; assumption].
Qed.

Lemma invalid_payload_iff_witness :
  let field := fun k => JS.lookup_prop k
                 [("device_id", JS.Str "DEV1"); ("sensor", JS.Str "dht11");
                  ("temperature", Sample.t22_5); ("humidity", JS.Str "wet")] in
  let out := post_api_data Sample.secret Sample.env0 Sample.bad_humidity Sample.st0 in
  header_truthy (x_api_key Sample.bad_humidity) = true /\
  x_api_key Sample.bad_humidity = Sample.secret /\
  destructure (body Sample.bad_humidity) = inr field /\
  out = (fst out, snd out) /\
  (status (fst out) = 400 <->
   JS.truthy (field "device_id") = false \/ JS.truthy (field "sensor") = false
   \/ field "temperature" = JS.Undefined \/ field "humidity" = JS.Undefined
   \/ exists temp hum,
        JS.parseFloat (field "temperature") = Some temp /\
        JS.parseFloat (field "humidity") = Some hum /\
        (temp = JS.NaN \/ hum = JS.NaN)).
Proof.
  intros field out.
  split; [reflexivity |]. split; [reflexivity |]. split; [reflexivity |].
  split; [apply surjective_pairing |].
  exact (proj1 (invalid_payload_iff Sample.secret Sample.env0 Sample.bad_humidity
                  Sample.st0 (fst out) (snd out) field
                  eq_refl eq_refl eq_refl (surjective_pairing out))).
Defined.

(** ** What a stored submit leaves in [sensorData] *)

Lemma accepted_submit API_KEY env req st r st' :
  post_api_data API_KEY env req st = (r, st') ->
  status r = 200 ->
  exists field temp hum key,
    destructure (body req) = inr field /\
    JS.parseFloat (field "temperature") = Some temp /\
    JS.parseFloat (field "humidity") = Some hum /\
    JS.ToString (field "device_id") = Some key /\
    sensorData st'
    = push_capped 1000
        (create_entry env (or_header (ip req) (remoteAddress req))
           (field "device_id") (field "sensor") (field "ts") temp hum
           (get_property (devices st') key))
        (sensorData st).
Proof.
  intros H Hstatus.
  handler_paths H; simpl in Hstatus; try discriminate.
  eexists _, _, _, _. repeat split; try eassumption.
  rewrite logConnection_sensorData. cbn [sensorData devices with_sensorData logConnection].
  rewrite auto_register_sensorData, check_ranges_sensorData. reflexivity.
Qed.

Lemma falsy_values e :
  JS.truthy (JS.Num (JS.Dec 0 e)) = false /\ JS.truthy (JS.Str "") = false /\
  JS.truthy JS.Null = false /\ JS.truthy (JS.Bool false) = false /\
  JS.truthy JS.Undefined = false.
Proof. repeat split. Qed.

(** C10: when the payload's [ts] is falsy (absent, or present as 0, the
    empty string, [null] or [false]), the entry stored by the submit carries
    the server's time as its [timestamp], the same instant as [received_at];
    the value sent by the device is not kept. *)
Theorem falsy_ts_replaced API_KEY env req st r st' field :
  destructure (body req) = inr field ->
  post_api_data API_KEY env req st = (r, st') ->
  status r = 200 ->
  JS.truthy (field "ts") = false ->
  exists entry,
    last (sensorData st') = Some entry /\
    Entry.timestamp entry = IsoString (now env) /\
    Entry.received_at entry = now env.
Proof.
  intros Hfield H Hstatus Hts.
  destruct (accepted_submit _ _ _ _ _ _ H Hstatus)
    as (field' & temp & hum & key & Hfield' & _ & _ & _ & Hstored).
  rewrite Hfield in Hfield'. injection Hfield' as <-.
  eexists. split; [rewrite Hstored; apply push_capped_last; lia |].
  cbn [create_entry Entry.timestamp Entry.received_at]. rewrite Hts.
  split; reflexivity.
Qed.

(** The device sends [ts = 0] with a temperature and a humidity of 0: the
    zeros of the reading are stored, the zero of [ts] is replaced. *)
Lemma falsy_ts_replaced_witness :
  let out := post_api_data Sample.secret Sample.env0 Sample.zero_ts Sample.st0 in
  destructure (body Sample.zero_ts) = inr (fun k => JS.lookup_prop k Sample.zero_props) /\
  out = (fst out, snd out) /\
  status (fst out) = 200 /\
  JS.truthy (JS.lookup_prop "ts" Sample.zero_props) = false /\
  exists entry,
    last (sensorData (snd out)) = Some entry /\
    Entry.timestamp entry = IsoString (now Sample.env0) /\
    Entry.received_at entry = now Sample.env0.
Proof.
  intros out.
  split; [reflexivity |]. split; [apply surjective_pairing |].
  split; [reflexivity |]. split; [reflexivity |].
  exact (falsy_ts_replaced Sample.secret Sample.env0 Sample.zero_ts Sample.st0
           (fst out) (snd out) (fun k => JS.lookup_prop k Sample.zero_props)
           eq_refl (surjective_pairing out) eq_refl eq_refl).
Defined.

Example zero_reading_stored :
  Entry.temperature <$> last (sensorData (snd (post_api_data Sample.secret Sample.env0
                                                 Sample.zero_ts Sample.st0)))
  = Some (JS.Dec 0 0).
Proof. reflexivity. Qed.

(** ** The registry *)

Lemma get_property_falsy (d : gmap string Device.t) key :
  Property_truthy (get_property d key) = false -> d !! key = None.
Proof.
  unfold get_property. destruct (d !! key); [discriminate | reflexivity].
Qed.

Lemma auto_register_keeps env req key device_name st known d :
  devices st !! known = Some d ->
  devices (auto_register env req key device_name st) !! known = Some d.
Proof.
  intros Hknown. unfold auto_register.
  destruct (Property_truthy (get_property (devices st) key)) eqn:Hfound;
    cbn [negb]; [assumption |].
  apply get_property_falsy in Hfound.
  rewrite logConnection_devices. cbn [devices with_devices].
  rewrite lookup_insert_ne; [assumption | congruence].
Qed.

Lemma post_api_data_keeps API_KEY env req st known d :
  devices st !! known = Some d ->
  devices (snd (post_api_data API_KEY env req st)) !! known = Some d.
Proof.
  intros Hknown.
  destruct (post_api_data API_KEY env req st) as [r st'] eqn:H. cbn [snd].
  handler_paths H; rewrite ?logConnection_devices; cbn [devices with_sensorData];
    rewrite ?check_ranges_devices; try assumption.
  apply auto_register_keeps. rewrite check_ranges_devices. assumption.
Qed.

Lemma handle_keeps API_KEY route env req st known d :
  devices st !! known = Some d ->
  devices (snd (handle API_KEY route env req st)) !! known = Some d.
Proof.
  intros Hknown. destruct route; cbn [handle snd]; try assumption.
  - apply post_api_data_keeps. assumption.
  - unfold get_api_data.
    repeat match goal with
           | |- context [match ?x with _ => _ end] => destruct x
           end; assumption.
  - unfold delete_api_data_cleanup.
    destruct (JS.parseInt _); assumption.
Qed.

(** C8: a device that is in the registry stays in it with the metadata it
    has, whatever requests the server handles afterwards: readings from that
    device under any [device_name], readings from others, queries, cleanups,
    failed requests. *)
Theorem registered_device_immutable API_KEY requests st known d :
  devices st !! known = Some d ->
  devices (serve API_KEY requests st) !! known = Some d.
Proof.
  revert st. induction requests as [| [[route env] req] requests IH];
    intros st Hknown; [assumption |].
  unfold serve in *. cbn [fold_left].
  apply IH. apply handle_keeps. assumption.
Qed.

Lemma registered_device_immutable_witness :
  devices Sample.st0 !! "DEADBEEF0001"
  = Some (Device.mk (JS.Str "Greenhouse_Node_1") "Greenhouse-01" 1699999000000 false) /\
  devices (serve Sample.secret
             [(PostData, Sample.env0, Sample.renamed);
              (Cleanup, Sample.env0, Sample.no_key);
              (PostData, Sample.env0, Sample.right_key)]
             Sample.st0) !! "DEADBEEF0001"
  = Some (Device.mk (JS.Str "Greenhouse_Node_1") "Greenhouse-01" 1699999000000 false).
Proof.
  split; [reflexivity |].
  apply (registered_device_immutable Sample.secret _ Sample.st0 "DEADBEEF0001").
  reflexivity.
Defined.

(** ** Cleanup *)

Lemma filter_complement_length {A : Type} (p : A -> bool) (l : list A) :
  length (List.filter p l) + length (List.filter (fun x => negb (p x)) l) = length l.
Proof.
  induction l as [| x l IH]; [reflexivity |].
  simpl. destruct (p x); simpl; lia.
Qed.

(** C3, as stated, fails: an entry received exactly at the cutoff is
    removed. *)
Lemma cleanup_counterexample :
  days_before (now Sample.env0) (Some 7%Z) = Some (Entry.received_at Sample.at_cutoff) /\
  In Sample.at_cutoff (sensorData Sample.st_week) /\
  delete_api_data_cleanup Sample.env0 Sample.cleanup_request Sample.st_week
  = (mkResponse 200 (CleanedUp 1 (JS.Num (JS.of_Z 7)) 1),
     with_sensorData [Sample.after_cutoff] Sample.st_week) /\
  ~ In Sample.at_cutoff
       (sensorData (snd (delete_api_data_cleanup Sample.env0 Sample.cleanup_request
                           Sample.st_week))).
Proof.
  split; [reflexivity |]. split; [left; reflexivity |]. split; [reflexivity |].
  intros [H | []]. discriminate H.
Qed.

(** C3, amended: a cleanup whose [days] parameter is converted by [parseInt]
    keeps, in their order, exactly the entries received strictly after the
    cutoff date, and removes the others: those received at the cutoff or
    before it, and every entry when the cutoff is an invalid date.  It
    reports the number of entries removed and the number that remain, and
    changes neither [devices] nor [connectionLogs]. *)
Theorem cleanup_keeps_strictly_after env req st n r st' :
  JS.parseInt (query_param req "days" (JS.Num (JS.of_Z 7))) = Some n ->
  delete_api_data_cleanup env req st = (r, st') ->
  let cutoffDate := days_before (now env) n in
  let removed :=
    List.filter (fun e => negb (after (Entry.received_at e) cutoffDate)) (sensorData st) in
  sensorData st'
  = List.filter (fun e => after (Entry.received_at e) cutoffDate) (sensorData st) /\
  (forall cutoff, cutoffDate = Some cutoff ->
     forall e,
       (In e (sensorData st')
        <-> In e (sensorData st) /\ (cutoff < Entry.received_at e)%Z) /\
       (In e removed
        <-> In e (sensorData st) /\ (Entry.received_at e <= cutoff)%Z)) /\
  (cutoffDate = None -> sensorData st' = []) /\
  r = mkResponse 200
        (CleanedUp (Z.of_nat (length removed))
                   (query_param req "days" (JS.Num (JS.of_Z 7)))
                   (length (sensorData st'))) /\
  devices st' = devices st /\
  connectionLogs st' = connectionLogs st.
Proof.
  intros Hdays H cutoffDate removed.
  unfold delete_api_data_cleanup in H. rewrite Hdays in H.
  cbv zeta in H. injection H as <- <-.
  cbn [sensorData devices connectionLogs with_sensorData app].
  fold cutoffDate.
  split; [reflexivity |].
  split.
  { intros cutoff Hcutoff e. unfold removed. rewrite Hcutoff.
    rewrite !filter_In. cbn [after]. rewrite negb_true_iff.
    rewrite Z.ltb_lt, Z.ltb_ge. tauto. }
  split.
  { intros Hinvalid. rewrite Hinvalid. cbn [after].
    induction (sensorData st) as [| e l IH]; [reflexivity | exact IH]. }
  split; [| split; reflexivity].
  do 2 f_equal. unfold removed.
  pose proof (filter_complement_length
                (fun e => after (Entry.received_at e) cutoffDate) (sensorData st)).
  lia.
Qed.

Lemma cleanup_keeps_strictly_after_witness :
  let out := delete_api_data_cleanup Sample.env0 Sample.cleanup_request Sample.st_week in
  JS.parseInt (query_param Sample.cleanup_request "days" (JS.Num (JS.of_Z 7)))
  = Some (Some 7%Z) /\
  out = (fst out, snd out) /\
  sensorData (snd out)
  = List.filter
      (fun e => after (Entry.received_at e) (days_before (now Sample.env0) (Some 7%Z)))
      (sensorData Sample.st_week).
Proof.
  intros out. split; [reflexivity |]. split; [apply surjective_pairing |].
  exact (proj1 (cleanup_keeps_strictly_after Sample.env0 Sample.cleanup_request
                  Sample.st_week (Some 7%Z) (fst out) (snd out)
                  eq_refl (surjective_pairing out))).
Defined.

(** ** [parseInt] reads back a natural number written in decimal

    so every offset and every limit can be asked for: the parameter
    [Z_toString n] is converted to [n]. *)

Lemma span_digits_uint d :
  JS.span_digits 10 (NilEmpty.string_of_uint d) = (uint_digits d, "").
Proof.
  induction d; [reflexivity | ..];
    cbn [NilEmpty.string_of_uint JS.span_digits uint_digits];
    rewrite IHd; reflexivity.
Qed.

Lemma digits_value_acc d (acc : positive) :
  fold_left (fun a x => a * 10 + x)%Z (uint_digits d) (Zpos acc)
  = Zpos (Pos.of_uint_acc d acc).
Proof.
  revert acc. induction d; intros acc; [reflexivity | ..];
    cbn [uint_digits fold_left Pos.of_uint_acc];
    match goal with
    | |- fold_left _ _ ?z = _ =>
        match goal with
        | |- _ = Zpos (Pos.of_uint_acc _ ?q) =>
            replace z with (Zpos q) by lia
        end
    end; apply IHd.
Qed.

Lemma digits_value_uint d :
  JS.digits_value 10 (uint_digits d) = Z.of_N (Pos.of_uint d).
Proof.
  unfold JS.digits_value.
  induction d; [reflexivity | ..]; cbn [uint_digits fold_left Pos.of_uint];
    [exact IHd | ..];
    match goal with
    | |- fold_left _ _ ?z = _ => let k := eval cbv in z in change z with k
    end; rewrite digits_value_acc; reflexivity.
Qed.

Lemma parseInt_string_uint d :
  d <> Decimal.Nil ->
  JS.parseInt_string (NilEmpty.string_of_uint d) = Some (Z.of_N (Pos.of_uint d)).
Proof.
  intros Hd. unfold JS.parseInt_string.
  assert (Hhead :
            let s := NilEmpty.string_of_uint d in
            JS.read_sign (JS.trim_start s) = (false, s) /\
            match s with
            | String "0"%char (String c r) =>
                if Ascii.eqb c "x" || Ascii.eqb c "X" then (16%Z, r) else (10%Z, s)
            | _ => (10%Z, s)
            end = (10%Z, s)).
  { destruct d as [| d | d | d | d | d | d | d | d | d | d]; try congruence;
      (split; [reflexivity |]);
      try reflexivity.
    destruct d; reflexivity. }
  cbv zeta in Hhead. destruct Hhead as [Hsign Hradix].
  rewrite Hsign, Hradix, span_digits_uint. cbn [fst].
  rewrite <- digits_value_uint.
  destruct (uint_digits d) eqn:Hdigits; [| reflexivity].
  destruct d; try discriminate Hdigits. congruence.
Qed.

Lemma parseInt_decimal (n : nat) :
  JS.parseInt (JS.Str (JS.Z_toString (Z.of_nat n))) = Some (Some (Z.of_nat n)).
Proof.
  unfold JS.parseInt. cbn [JS.ToString fmap option_fmap option_map]. f_equal.
  destruct (Z.of_nat n) as [| p | p] eqn:Hn; [reflexivity | | lia].
  cbn [JS.Z_toString]. unfold JS.decimal_digits.
  rewrite string_of_list_ascii_of_string.
  rewrite parseInt_string_uint by apply DecimalPos.Unsigned.to_uint_nonnil.
  rewrite DecimalPos.Unsigned.of_to. reflexivity.
Qed.

(** ** Pagination *)

Lemma slice_window {A : Type} (l : list A) (o m : nat) :
  JS.slice l (Some (Z.of_nat o)) (JS.add (Some (Z.of_nat o)) (Some (Z.of_nat m)))
  = take m (drop o l).
Proof.
  unfold JS.slice, JS.add, JS.ToIntegerOrInfinity.
  destruct (Z.ltb_spec (Z.of_nat o) 0) as [Hneg | _]; [lia |].
  destruct (Z.ltb_spec (Z.of_nat o + Z.of_nat m) 0) as [Hneg | _]; [lia |].
  destruct (Nat.le_gt_cases o (length l)) as [Hin | Hout].
  - replace (Z.to_nat (Z.min (Z.of_nat o) (Z.of_nat (length l)))) with o by lia.
    replace (Z.to_nat (Z.min (Z.of_nat o + Z.of_nat m) (Z.of_nat (length l))
                       - Z.min (Z.of_nat o) (Z.of_nat (length l))))
      with (min m (length (drop o l))) by (rewrite length_drop; lia).
    destruct (Nat.le_gt_cases m (length (drop o l))) as [Hm | Hm].
    + rewrite Nat.min_l by assumption. reflexivity.
    + rewrite Nat.min_r by lia. rewrite !take_ge by lia. reflexivity.
  - replace (Z.to_nat (Z.min (Z.of_nat o) (Z.of_nat (length l)))) with (length l) by lia.
    rewrite !drop_ge by lia. rewrite !take_nil. reflexivity.
Qed.

Lemma strict_eq_Str v d : JS.strict_eq v (JS.Str d) = true <-> v = JS.Str d.
Proof.
  destruct v; simpl; try (split; [discriminate | congruence]).
  rewrite String.eqb_eq. split; congruence.
Qed.

(** C4: with an offset [o] and a requested limit [l], both natural numbers,
    [GET /api/data] answers with [total] the number F of entries that match
    the filter (all entries, or those whose [device_id] is the given string),
    and with a page made of the matches that follow the [o] oldest ones, at
    most min(l, 500) of them, newest first; the page has
    min(max(F - o, 0), min(l, 500)) entries. *)
Theorem pagination_law req st (o l : nat) :
  JS.parseInt (query_param req "offset" (JS.Num (JS.of_Z 0))) = Some (Some (Z.of_nat o)) ->
  JS.parseInt (query_param req "limit" (JS.Num (JS.of_Z 50))) = Some (Some (Z.of_nat l)) ->
  let filtered := filter_by_device (JS.lookup_prop "device_id" (query req)) (sensorData st) in
  let F := length filtered in
  let page := rev (take (min l 500) (drop o filtered)) in
  get_api_data req st
  = (mkResponse 200
       (DataPage F (length page) (Some (Z.of_nat o)) (Some (Z.min (Z.of_nat l) 500)) page),
     st) /\
  Z.of_nat (length page)
  = Z.min (Z.max (Z.of_nat F - Z.of_nat o) 0) (Z.min (Z.of_nat l) 500) /\
  (forall d, JS.lookup_prop "device_id" (query req) = JS.Str d -> d <> "" ->
     forall e, In e filtered <-> In e (sensorData st) /\ Entry.device_id e = JS.Str d) /\
  (JS.truthy (JS.lookup_prop "device_id" (query req)) = false ->
     filtered = sensorData st).
Proof.
  intros Hoffset Hlimit filtered F page.
  assert (Hwindow :
            JS.slice filtered (Some (Z.of_nat o))
              (JS.add (Some (Z.of_nat o)) (JS.Math_min (Some (Z.of_nat l)) (Some 500%Z)))
            = take (min l 500) (drop o filtered)).
  { cbn [JS.Math_min].
    replace (Z.min (Z.of_nat l) 500) with (Z.of_nat (min l 500)) by lia.
    apply slice_window. }
  split.
  { unfold get_api_data. rewrite Hoffset, Hlimit. cbv zeta.
    fold filtered. rewrite Hwindow.
    unfold page. rewrite length_rev. reflexivity. }
  split.
  { unfold page. rewrite length_rev, length_take, length_drop. fold F. lia. }
  split.
  { intros d Hd Hne e. unfold filtered, filter_by_device. rewrite Hd.
    cbn [JS.truthy]. rewrite (proj2 (String.eqb_neq d "")) by assumption.
    cbn [negb]. rewrite filter_In, strict_eq_Str. tauto. }
  intros Hnone. unfold filtered, filter_by_device. rewrite Hnone. reflexivity.
Qed.

Lemma pagination_law_witness :
  JS.parseInt (query_param Sample.page_request "offset" (JS.Num (JS.of_Z 0)))
  = Some (Some (Z.of_nat 1)) /\
  JS.parseInt (query_param Sample.page_request "limit" (JS.Num (JS.of_Z 50)))
  = Some (Some (Z.of_nat 2)) /\
  get_api_data Sample.page_request Sample.st_five
  = (mkResponse 200
       (DataPage 4 2 (Some 1%Z) (Some 2%Z)
          [Sample.entry_at 1699999400000 "DEV1"; Sample.entry_at 1699999300000 "DEV1"]),
     Sample.st_five).
Proof.
  split; [reflexivity |]. split; [reflexivity |].
  exact (proj1 (pagination_law Sample.page_request Sample.st_five 1 2 eq_refl eq_refl)).
Defined.

(** ** Runs of the server *)

Lemma rejected_submit_sensorData API_KEY env req st r st' :
  post_api_data API_KEY env req st = (r, st') ->
  status r <> 200 ->
  sensorData st' = sensorData st.
Proof.
  intros H Hstatus.
  handler_paths H; cbn [status] in Hstatus; try congruence;
    rewrite ?logConnection_sensorData, ?check_ranges_sensorData; reflexivity.
Qed.

Lemma post_api_data_sensorData API_KEY env req st :
  sensorData (snd (post_api_data API_KEY env req st))
  = push_all 1000 (appended_by API_KEY env req st) (sensorData st).
Proof.
  unfold appended_by.
  destruct (post_api_data API_KEY env req st) as [r st'] eqn:H. cbn [snd].
  destruct (Nat.eqb_spec (status r) 200) as [Hok | Hfailed].
  - destruct (accepted_submit _ _ _ _ _ _ H Hok)
      as (field & temp & hum & key & _ & _ & _ & _ & Hstored).
    rewrite Hstored at 1. rewrite Hstored.
    rewrite push_capped_last by lia. reflexivity.
  - apply (rejected_submit_sensorData _ _ _ _ _ _ H Hfailed).
Qed.

Lemma submit_all_sensorData API_KEY submits st :
  sensorData (snd (submit_all API_KEY submits st))
  = push_all 1000 (fst (submit_all API_KEY submits st)) (sensorData st).
Proof.
  revert st. induction submits as [| [env req] rest IH]; intros st; [reflexivity |].
  cbn [submit_all].
  specialize (IH (snd (post_api_data API_KEY env req st))).
  destruct (submit_all API_KEY rest _) as [entries final].
  cbn [fst snd] in *.
  rewrite push_all_app, <- post_api_data_sensorData. exact IH.
Qed.

(** After any run of submits on a server that has just started, [sensorData]
    holds the last 1000 of the entries the submits appended. *)
Lemma submits_keep_last_1000 API_KEY submits started :
  let '(entries, final) := submit_all API_KEY submits (initial_state started) in
  sensorData final = drop (length entries - 1000) entries /\
  length (sensorData final) = min (length entries) 1000.
Proof.
  pose proof (submit_all_sensorData API_KEY submits (initial_state started)) as H.
  destruct (submit_all API_KEY submits (initial_state started)) as [entries final].
  cbn [fst snd sensorData initial_state] in H. rewrite H.
  split.
  - rewrite push_all_drop by (simpl; lia). reflexivity.
  - rewrite push_all_length by (simpl; lia). reflexivity.
Qed.

Lemma logConnection_within_capacity env req s m st :
  within_capacity st -> within_capacity (logConnection env req s m st).
Proof.
  intros [Hdata Hlogs]. split; [exact Hdata |].
  rewrite logConnection_connectionLogs. apply push_capped_length. exact Hlogs.
Qed.

Lemma check_ranges_within_capacity env req temp hum st :
  within_capacity st -> within_capacity (check_ranges env req temp hum st).
Proof.
  intros H. unfold check_ranges. destruct (outside_ranges temp hum);
    [apply logConnection_within_capacity |]; exact H.
Qed.

Lemma auto_register_within_capacity env req key device_name st :
  within_capacity st -> within_capacity (auto_register env req key device_name st).
Proof.
  intros H. unfold auto_register.
  destruct (Property_truthy (get_property (devices st) key)); cbn [negb];
    [exact H |].
  apply logConnection_within_capacity. exact H.
Qed.

Lemma filter_length_le {A : Type} (p : A -> bool) (l : list A) :
  length (List.filter p l) <= length l.
Proof. pose proof (filter_complement_length p l). lia. Qed.

Lemma handle_within_capacity API_KEY route env req st :
  within_capacity st -> within_capacity (snd (handle API_KEY route env req st)).
Proof.
  intros Hst. destruct route; cbn [handle snd]; try exact Hst.
  - destruct (post_api_data API_KEY env req st) as [r st'] eqn:H. cbn [snd].
    handler_paths H;
      repeat first [ apply logConnection_within_capacity
                   | apply check_ranges_within_capacity
                   | exact Hst ].
    match goal with
    | |- within_capacity (with_sensorData _ ?registered) =>
        assert (Hregistered : within_capacity registered)
          by (apply auto_register_within_capacity, check_ranges_within_capacity, Hst)
    end.
    destruct Hregistered as [Hdata Hlogs]. split; [| exact Hlogs].
    cbn [sensorData with_sensorData]. apply push_capped_length. exact Hdata.
  - unfold get_api_data.
    repeat match goal with
           | |- context [match ?x with _ => _ end] => destruct x
           end; exact Hst.
  - unfold delete_api_data_cleanup. destruct (JS.parseInt _); [| exact Hst].
    destruct Hst as [Hdata Hlogs]. split; [| exact Hlogs].
    cbn [snd sensorData with_sensorData app].
    match goal with
    | |- context [List.filter ?p ?l] => pose proof (filter_length_le p l)
    end. lia.
  - apply logConnection_within_capacity. exact Hst.
Qed.

(** X1: whatever requests a server handles after it started, on any routes
    and in any order, [sensorData] never holds more than 1000 entries and
    [connectionLogs] never more than 100 records. *)
Lemma serve_within_capacity API_KEY requests started :
  within_capacity (serve API_KEY requests (initial_state started)).
Proof.
  assert (Hrun : forall st, within_capacity st ->
                            within_capacity (serve API_KEY requests st)).
  { induction requests as [| [[route env] req] requests IH]; intros st Hst;
      [exact Hst |].
    unfold serve in *. cbn [fold_left]. apply IH, handle_within_capacity, Hst. }
  apply Hrun. split; simpl; lia.
Qed.

(** ** The log and statistics queries *)

Lemma slice_from_end {A : Type} (l : list A) (k : nat) :
  0 < k ->
  JS.slice l (Some (- Z.of_nat k)%Z) (Some (Z.of_nat (length l)))
  = drop (length l - k) l.
Proof.
  intros Hk. unfold JS.slice, JS.ToIntegerOrInfinity.
  destruct (Z.ltb_spec (- Z.of_nat k) 0) as [_ | Hnonneg]; [| lia].
  destruct (Z.ltb_spec (Z.of_nat (length l)) 0) as [Hneg | _]; [lia |].
  replace (Z.to_nat (Z.max (Z.of_nat (length l) + - Z.of_nat k) 0))
    with (length l - k) by lia.
  apply take_ge. rewrite length_drop. lia.
Qed.

Lemma head_rev {A : Type} (l : list A) : head (rev l) = last l.
Proof.
  induction l as [| x l _] using rev_ind; [reflexivity |].
  rewrite rev_app_distr, last_snoc. reflexivity.
Qed.

Lemma last_drop {A : Type} (l : list A) (n : nat) :
  n < length l -> last (drop n l) = last l.
Proof.
  revert n. induction l as [| x l IH]; intros n Hn; [simpl in Hn; lia |].
  destruct n as [| n]; [reflexivity |].
  simpl in Hn. cbn [drop]. rewrite IH by lia.
  destruct l; [simpl in Hn; lia | reflexivity].
Qed.

(** X2: [GET /api/logs] reports the number of records kept and returns the
    last 50 of them (all of them when there are fewer), the newest first: the
    first record of the page is the record logged last.  The state is not
    changed. *)
Theorem recent_logs_newest_first st :
  let logs := connectionLogs st in
  let page := rev (drop (length logs - 50) logs) in
  get_api_logs st = (mkResponse 200 (LogPage (length logs) page), st) /\
  length page = min (length logs) 50 /\
  head page = last logs.
Proof.
  intros logs page. split; [| split].
  - unfold get_api_logs. fold logs.
    change (Some (-50)%Z) with (Some (- Z.of_nat 50)%Z).
    rewrite (slice_from_end logs 50) by lia. reflexivity.
  - unfold page. rewrite length_rev, length_drop. lia.
  - unfold page. rewrite head_rev.
    destruct logs as [| x logs'] eqn:Hlogs; [reflexivity |].
    apply last_drop. simpl. lia.
Qed.

Lemma filter_length_mono {A : Type} (p q : A -> bool) (l : list A) :
  (forall x, p x = true -> q x = true) ->
  length (List.filter p l) <= length (List.filter q l).
Proof.
  intros Hpq. induction l as [| x l IH]; [reflexivity |].
  simpl. destruct (p x) eqn:Hp.
  - rewrite (Hpq x Hp). simpl. lia.
  - destruct (q x); simpl; lia.
Qed.

Lemma filter_length_pos {A : Type} (p : A -> bool) (l : list A) (x : A) :
  In x l -> p x = true -> 1 <= length (List.filter p l).
Proof.
  intros Hin Hp.
  assert (Hx : In x (List.filter p l)) by (apply filter_In; split; assumption).
  destruct (List.filter p l); [destruct Hx | simpl; lia].
Qed.

(** X3: in the answer of [GET /api/stats] the counts are nested: the entries
    received in the last hour are among those received in the last 24 hours,
    which are among all entries; [latest_entry] is the entry stored last
    (none when [sensorData] is empty).  The state is not changed. *)
Theorem stats_counts_nested env st :
  exists last_hour last_24h,
    get_api_stats env st
    = (mkResponse 200
         (Statistics (size (devices st)) (length (sensorData st))
                     last_hour last_24h (last (sensorData st))),
       st) /\
    last_hour
    = length (List.filter (fun e => (now env - 3600000 <? Entry.received_at e)%Z)
                          (sensorData st)) /\
    last_24h
    = length (List.filter (fun e => (now env - 86400000 <? Entry.received_at e)%Z)
                          (sensorData st)) /\
    last_hour <= last_24h /\
    last_24h <= length (sensorData st).
Proof.
  eexists _, _. split; [reflexivity |].
  split; [reflexivity |]. split; [reflexivity |]. split.
  - apply filter_length_mono. intros e He.
    apply Z.ltb_lt in He. apply Z.ltb_lt. lia.
  - apply filter_length_le.
Qed.

(** ** What an accepted submit does *)

Lemma auto_register_devices env req key device_name st :
  devices (auto_register env req key device_name st)
  = if Property_truthy (get_property (devices st) key)
    then devices st
    else <[key := Device.mk (JS.or_else device_name (JS.Str ("Device-" +:+ key)))
                            "Unknown" (now env) true]> (devices st).
Proof.
  unfold auto_register.
  destruct (Property_truthy (get_property (devices st) key)); reflexivity.
Qed.

(** The path of a submit answered 200, with everything it tested. *)
Lemma stored_submit API_KEY env req st r st' :
  post_api_data API_KEY env req st = (r, st') ->
  status r = 200 ->
  exists field temp hum key,
    destructure (body req) = inr field /\
    JS.truthy (field "device_id") = true /\
    JS.truthy (field "sensor") = true /\
    JS.parseFloat (field "temperature") = Some temp /\
    JS.parseFloat (field "humidity") = Some hum /\
    JS.isNaN temp = false /\
    JS.isNaN hum = false /\
    JS.ToString (field "device_id") = Some key /\
    let registered :=
      auto_register env req key (field "device_name")
                    (check_ranges env req temp hum st) in
    let entry :=
      create_entry env (or_header (ip req) (remoteAddress req))
                   (field "device_id") (field "sensor") (field "ts") temp hum
                   (get_property (devices registered) key) in
    r = mkResponse 200 (Received (Entry.id entry) (field "device_id") (now env)) /\
    st' = logConnection env req "SUCCESS" ("Data received from " +:+ key)
            (with_sensorData (push_capped 1000 entry (sensorData registered))
                             registered).
Proof.
  intros H Hstatus.
  handler_paths H; simpl in Hstatus; try discriminate.
  match goal with
  | Hm : _ || _ || _ || _ = false, Hn : JS.isNaN _ || JS.isNaN _ = false |- _ =>
      apply orb_false_iff in Hn as [Htn Hhn];
      apply orb_false_iff in Hm as [Hm _];
      apply orb_false_iff in Hm as [Hm _];
      apply orb_false_iff in Hm as [Hid Hsensor];
      apply negb_false_iff in Hid, Hsensor
  end.
  eexists _, _, _, _.
  repeat (split; [eassumption || reflexivity |]). reflexivity.
Qed.

(** X4: the entry stored by a submit answered 200 is the last of
    [sensorData]; its temperature and humidity are the numbers [parseFloat]
    made of the payload's values, neither of them NaN, its [device_id] and
    [sensor] are the payload's values as sent; the answer carries the [id]
    and the receipt time of that entry. *)
Theorem stored_entry_matches_answer API_KEY env req st r st' field :
  post_api_data API_KEY env req st = (r, st') ->
  status r = 200 ->
  destructure (body req) = inr field ->
  exists entry temp hum,
    last (sensorData st') = Some entry /\
    JS.parseFloat (field "temperature") = Some temp /\
    JS.parseFloat (field "humidity") = Some hum /\
    Entry.temperature entry = temp /\ JS.isNaN temp = false /\
    Entry.humidity entry = hum /\ JS.isNaN hum = false /\
    Entry.device_id entry = field "device_id" /\
    Entry.sensor entry = field "sensor" /\
    Entry.client_ip entry = or_header (ip req) (remoteAddress req) /\
    Entry.id entry = JS.Number_toString (JS.of_Z (now env)) +:+ random_suffix env /\
    r = mkResponse 200
          (Received (Entry.id entry) (Entry.device_id entry) (Entry.received_at entry)).
Proof.
  intros H Hstatus Hfield.
  destruct (stored_submit _ _ _ _ _ _ H Hstatus)
    as (field' & temp & hum & key & Hfield' & _ & _ & Htemp & Hhum & Htn & Hhn & _ & Hr & Hst).
  rewrite Hfield in Hfield'. injection Hfield' as <-.
  cbv zeta in Hr, Hst. subst r st'.
  eexists _, temp, hum. split.
  { rewrite logConnection_sensorData. cbn [sensorData with_sensorData].
    apply push_capped_last. lia. }
  repeat (split; [assumption || reflexivity |]). reflexivity.
Qed.

Lemma stored_entry_matches_answer_witness :
  let out := post_api_data Sample.secret Sample.env0 Sample.right_key Sample.st0 in
  let field := fun k => JS.lookup_prop k Scenario.dev1_props in
  out = (fst out, snd out) /\
  status (fst out) = 200 /\
  destructure (body Sample.right_key) = inr field /\
  exists entry temp hum,
    last (sensorData (snd out)) = Some entry /\
    JS.parseFloat (field "temperature") = Some temp /\
    JS.parseFloat (field "humidity") = Some hum /\
    Entry.temperature entry = temp /\ JS.isNaN temp = false /\
    Entry.humidity entry = hum /\ JS.isNaN hum = false /\
    Entry.device_id entry = field "device_id" /\
    Entry.sensor entry = field "sensor" /\
    Entry.client_ip entry = or_header (ip Sample.right_key) (remoteAddress Sample.right_key) /\
    Entry.id entry
    = JS.Number_toString (JS.of_Z (now Sample.env0)) +:+ random_suffix Sample.env0 /\
    fst out = mkResponse 200
                (Received (Entry.id entry) (Entry.device_id entry)
                          (Entry.received_at entry)).
Proof.
  intros out field.
  split; [apply surjective_pairing |]. split; [reflexivity |]. split; [reflexivity |].
  exact (stored_entry_matches_answer Sample.secret Sample.env0 Sample.right_key
           Sample.st0 (fst out) (snd out) field
           (surjective_pairing out) eq_refl eq_refl).
Defined.

(** X5: after a submit answered 200, a [GET /api/stats] made at the same
    instant or less than an hour later (with no other request in between)
    reports the stored entry as [latest_entry] and counts it in
    [data_last_hour] and in [data_last_24h]. *)
Theorem stats_show_stored_entry API_KEY env req st r st' later :
  post_api_data API_KEY env req st = (r, st') ->
  status r = 200 ->
  (now env <= now later < now env + 3600000)%Z ->
  exists entry last_hour last_24h,
    get_api_stats later st'
    = (mkResponse 200
         (Statistics (size (devices st')) (length (sensorData st'))
                     last_hour last_24h (Some entry)),
       st') /\
    Entry.received_at entry = now env /\
    1 <= last_hour /\ last_hour <= last_24h.
Proof.
  intros H Hstatus Hlater.
  destruct (stored_submit _ _ _ _ _ _ H Hstatus)
    as (field & temp & hum & key & _ & _ & _ & _ & _ & _ & _ & _ & _ & Hst).
  cbv zeta in Hst.
  match type of Hst with
  | _ = logConnection _ _ _ _ (with_sensorData (push_capped _ ?e ?data) _) =>
      assert (Hlast : last (sensorData st') = Some e)
        by (rewrite Hst, logConnection_sensorData; cbn [sensorData with_sensorData];
            apply push_capped_last; lia);
      exists e
  end.
  eexists _, _. unfold get_api_stats. rewrite Hlast.
  split; [reflexivity |]. split; [reflexivity |]. split.
  - eapply filter_length_pos.
    + apply last_Some_elem_of, list_elem_of_In in Hlast. exact Hlast.
    + cbn [create_entry Entry.received_at]. apply Z.ltb_lt. lia.
  - apply filter_length_mono. intros e He.
    apply Z.ltb_lt in He. apply Z.ltb_lt. lia.
Qed.

Lemma stats_show_stored_entry_witness :
  let out := post_api_data Sample.secret Sample.env0 Sample.right_key Sample.st0 in
  out = (fst out, snd out) /\
  status (fst out) = 200 /\
  (now Sample.env0 <= now Scenario.later < now Sample.env0 + 3600000)%Z /\
  exists entry last_hour last_24h,
    get_api_stats Scenario.later (snd out)
    = (mkResponse 200
         (Statistics (size (devices (snd out))) (length (sensorData (snd out)))
                     last_hour last_24h (Some entry)),
       snd out) /\
    Entry.received_at entry = now Sample.env0 /\
    1 <= last_hour /\ last_hour <= last_24h.
Proof.
  intros out.
  split; [apply surjective_pairing |]. split; [reflexivity |].
  split; [split; [discriminate | reflexivity] |].
  apply (stats_show_stored_entry Sample.secret Sample.env0 Sample.right_key Sample.st0
           (fst out) (snd out) Scenario.later (surjective_pairing out) eq_refl).
  split; [discriminate | reflexivity].
Defined.

(** ** Registration on the first reading *)

(** X6: the first reading of a device (a submit answered 200 whose
    [device_id], as a property key, is neither in the registry nor a property
    name of [Object.prototype]) adds exactly that key to [devices], named by
    [device_name] or else ["Device-" + id], at location ["Unknown"], marked
    [autoRegistered]; the entry stored with the reading refers to that device,
    and [GET /api/devices] then counts one device more. *)
Theorem first_reading_registers API_KEY env req st r st' field key :
  post_api_data API_KEY env req st = (r, st') ->
  status r = 200 ->
  destructure (body req) = inr field ->
  JS.ToString (field "device_id") = Some key ->
  devices st !! key = None ->
  existsb (String.eqb key) Object_prototype_keys = false ->
  let device :=
    Device.mk (JS.or_else (field "device_name") (JS.Str ("Device-" +:+ key)))
              "Unknown" (now env) true in
  devices st' = <[key := device]> (devices st) /\
  (exists entry,
     last (sensorData st') = Some entry /\ Entry.device_meta entry = Own device) /\
  get_api_devices st'
  = (mkResponse 200 (DeviceList (S (size (devices st))) (devices st')), st').
Proof.
  intros H Hstatus Hfield Hkey Hnew Hplain device.
  destruct (stored_submit _ _ _ _ _ _ H Hstatus)
    as (field' & temp & hum & key' & Hfield' & _ & _ & _ & _ & _ & _ & Hkey' & _ & Hst).
  rewrite Hfield in Hfield'. injection Hfield' as <-.
  rewrite Hkey in Hkey'. injection Hkey' as <-.
  cbv zeta in Hst.
  assert (Hdevices :
            devices (auto_register env req key (field "device_name")
                       (check_ranges env req temp hum st))
            = <[key := device]> (devices st)).
  { rewrite auto_register_devices, check_ranges_devices.
    unfold get_property. rewrite Hnew, Hplain. reflexivity. }
  rewrite Hdevices in Hst. subst st'.
  rewrite logConnection_devices. cbn [devices with_sensorData].
  split; [exact Hdevices |]. split.
  - eexists. split.
    + rewrite logConnection_sensorData. cbn [sensorData with_sensorData].
      apply push_capped_last. lia.
    + cbn [create_entry Entry.device_meta]. unfold get_property.
      rewrite lookup_insert_eq. reflexivity.
  - unfold get_api_devices. rewrite logConnection_devices.
    cbn [devices with_sensorData]. rewrite Hdevices.
    rewrite map_size_insert_None by exact Hnew. reflexivity.
Qed.

Lemma first_reading_registers_witness :
  let out := post_api_data Sample.secret Sample.env0 Sample.right_key Sample.st0 in
  let field := fun k => JS.lookup_prop k Scenario.dev1_props in
  let device := Device.mk (JS.Str "Device-DEV1") "Unknown" (now Sample.env0) true in
  out = (fst out, snd out) /\
  status (fst out) = 200 /\
  destructure (body Sample.right_key) = inr field /\
  JS.ToString (field "device_id") = Some "DEV1" /\
  devices Sample.st0 !! "DEV1" = None /\
  existsb (String.eqb "DEV1") Object_prototype_keys = false /\
  devices (snd out) = <["DEV1" := device]> (devices Sample.st0) /\
  (exists entry,
     last (sensorData (snd out)) = Some entry /\ Entry.device_meta entry = Own device) /\
  get_api_devices (snd out)
  = (mkResponse 200 (DeviceList 3 (devices (snd out))), snd out).
Proof.
  intros out field device.
  split; [apply surjective_pairing |]. split; [reflexivity |].
  split; [reflexivity |]. split; [reflexivity |]. split; [reflexivity |].
  split; [reflexivity |].
  exact (first_reading_registers Sample.secret Sample.env0 Sample.right_key Sample.st0
           (fst out) (snd out) field "DEV1"
           (surjective_pairing out) eq_refl eq_refl eq_refl eq_refl eq_refl).
Defined.

(** ** Invariants over the runs of the server *)

Lemma rejected_submit_devices API_KEY env req st r st' :
  post_api_data API_KEY env req st = (r, st') ->
  status r <> 200 ->
  devices st' = devices st.
Proof.
  intros H Hstatus.
  handler_paths H; cbn [status] in Hstatus; try congruence;
    rewrite ?logConnection_devices, ?check_ranges_devices; reflexivity.
Qed.

(** A property of [devices] and [sensorData] that accepted submits and
    cleanups keep is kept by every request. *)
Lemma handle_keeps_invariant (I : State -> Prop) API_KEY :
  (forall st1 st2, devices st1 = devices st2 -> sensorData st1 = sensorData st2 ->
                   I st1 -> I st2) ->
  (forall env req st r st',
     post_api_data API_KEY env req st = (r, st') -> status r = 200 -> I st -> I st') ->
  (forall p st, I st -> I (with_sensorData (List.filter p (sensorData st)) st)) ->
  forall route env req st, I st -> I (snd (handle API_KEY route env req st)).
Proof.
  intros Hframe Hsubmit Hfilter route env req st Hst.
  destruct route; cbn [handle snd]; try exact Hst.
  - destruct (post_api_data API_KEY env req st) as [r st'] eqn:H. cbn [snd].
    destruct (Nat.eq_dec (status r) 200) as [Hok | Hfailed].
    + exact (Hsubmit _ _ _ _ _ H Hok Hst).
    + apply (Hframe st); [| | exact Hst].
      * symmetry. exact (rejected_submit_devices _ _ _ _ _ _ H Hfailed).
      * symmetry. exact (rejected_submit_sensorData _ _ _ _ _ _ H Hfailed).
  - unfold get_api_data.
    repeat match goal with
           | |- context [match ?x with _ => _ end] => destruct x
           end; exact Hst.
  - unfold delete_api_data_cleanup. destruct (JS.parseInt _); [| exact Hst].
    cbn [snd app]. apply Hfilter. exact Hst.
  - apply (Hframe st); [reflexivity | reflexivity | exact Hst].
Qed.

Lemma serve_keeps_invariant (I : State -> Prop) API_KEY :
  (forall route env req st, I st -> I (snd (handle API_KEY route env req st))) ->
  forall requests st, I st -> I (serve API_KEY requests st).
Proof.
  intros Hstep requests.
  induction requests as [| [[route env] req] requests IH]; intros st Hst;
    [exact Hst |].
  unfold serve in *. cbn [fold_left]. apply IH, Hstep, Hst.
Qed.

Lemma push_capped_In {A : Type} cap (x y : A) (l : list A) :
  In y (push_capped cap x l) -> y = x \/ In y l.
Proof.
  unfold push_capped. intros Hin.
  assert (Hall : In y (l ++ [x])).
  { destruct (cap <? length (l ++ [x])); [| exact Hin].
    destruct (l ++ [x]); [destruct Hin | right; exact Hin]. }
  apply in_app_or in Hall as [Hl | [Hx | []]]; [right | left]; congruence.
Qed.

Lemma prototype_key_iff key :
  existsb (String.eqb key) Object_prototype_keys = true
  <-> In key Object_prototype_keys.
Proof.
  rewrite existsb_exists. split.
  - intros (k & Hin & Heq). apply String.eqb_eq in Heq. congruence.
  - intros Hin. exists key. split; [exact Hin | apply String.eqb_refl].
Qed.

Lemma plain_keys_kept API_KEY route env req st :
  plain_keys st -> plain_keys (snd (handle API_KEY route env req st)).
Proof.
  apply (handle_keeps_invariant plain_keys).
  - intros st1 st2 Hd _ H key Hkey. rewrite <- Hd. exact (H key Hkey).
  - intros env' req' st0 r st' H Hok Hst0 key Hkey.
    destruct (stored_submit _ _ _ _ _ _ H Hok)
      as (field & temp & hum & k & _ & _ & _ & _ & _ & _ & _ & _ & _ & Hst').
    cbv zeta in Hst'. subst st'.
    rewrite logConnection_devices. cbn [devices with_sensorData].
    rewrite auto_register_devices, check_ranges_devices.
    destruct (Property_truthy (get_property (devices st0) k)) eqn:Hfound;
      [exact (Hst0 key Hkey) |].
    rewrite lookup_insert_ne; [exact (Hst0 key Hkey) |].
    intros ->. unfold get_property in Hfound.
    rewrite (Hst0 key Hkey), Hkey in Hfound. discriminate.
  - intros p st0 H. exact H.
Qed.

(** X7: a property name of [Object.prototype] ([constructor], [toString],
    [__proto__], ...) never becomes a key of [devices], whatever requests the
    server handles after it started: for such a [device_id] the test
    [!devices[device_id]] finds the inherited property and the registration
    is skipped. *)
Theorem prototype_names_never_registered API_KEY requests started key :
  In key Object_prototype_keys ->
  devices (serve API_KEY requests (initial_state started)) !! key = None.
Proof.
  intros Hkey.
  assert (Hrun : plain_keys (serve API_KEY requests (initial_state started))).
  { apply serve_keeps_invariant; [intros; apply plain_keys_kept; assumption |].
    intros k Hk. apply prototype_key_iff in Hk.
    repeat (destruct Hk as [<- | Hk]; [reflexivity |]). destruct Hk. }
  apply Hrun, prototype_key_iff, Hkey.
Qed.

Lemma prototype_names_never_registered_witness :
  In "constructor" Object_prototype_keys /\
  devices (serve Sample.secret
             [(PostData, Sample.env0, Scenario.constructor_device);
              (PostData, Scenario.later, Sample.right_key)]
             (initial_state 1699999000000)) !! "constructor" = None.
Proof.
  split; [left; reflexivity |].
  apply (prototype_names_never_registered Sample.secret _ 1699999000000%Z "constructor").
  left; reflexivity.
Defined.

(** The submit of the device called [constructor] is answered 200; its entry
    refers to the inherited property, and no device is added. *)
Example constructor_device_stored :
  let out := post_api_data Sample.secret Sample.env0 Scenario.constructor_device
               Sample.st0 in
  status (fst out) = 200 /\
  Entry.device_meta <$> last (sensorData (snd out)) = Some Inherited /\
  devices (snd out) = devices Sample.st0.
Proof. repeat split. Qed.

Lemma is_reading_kept API_KEY route env req st :
  Forall is_reading (sensorData st) ->
  Forall is_reading (sensorData (snd (handle API_KEY route env req st))).
Proof.
  apply (handle_keeps_invariant (fun s => Forall is_reading (sensorData s))).
  - intros st1 st2 _ Hs H. rewrite <- Hs. exact H.
  - intros env' req' st0 r st' H Hok Hst0.
    destruct (stored_submit _ _ _ _ _ _ H Hok)
      as (field & temp & hum & k & _ & _ & _ & _ & _ & Htn & Hhn & _ & _ & Hst').
    cbv zeta in Hst'. subst st'.
    rewrite logConnection_sensorData. cbn [sensorData with_sensorData].
    rewrite auto_register_sensorData, check_ranges_sensorData.
    apply List.Forall_forall. intros e He.
    apply push_capped_In in He as [-> | He].
    + split; assumption.
    + exact (proj1 (List.Forall_forall _ _) Hst0 e He).
  - intros p st0 H. cbn [sensorData with_sensorData].
    apply List.Forall_forall. intros e He. apply filter_In in He as [He _].
    exact (proj1 (List.Forall_forall _ _) H e He).
Qed.

(** X8: whatever requests the server handles after it started, every entry
    of [sensorData] has a temperature and a humidity that are not NaN. *)
Theorem stored_numbers_never_NaN API_KEY requests started :
  Forall is_reading (sensorData (serve API_KEY requests (initial_state started))).
Proof.
  apply (serve_keeps_invariant (fun s => Forall is_reading (sensorData s))).
  - intros. apply is_reading_kept. assumption.
  - apply Forall_nil. exact I.
Qed.

Lemma get_property_Own (d : gmap string Device.t) key device :
  get_property d key = Own device -> d !! key = Some device.
Proof.
  unfold get_property. destruct (d !! key) as [device' |]; [congruence |].
  destruct (existsb _ _); discriminate.
Qed.

Lemma refers_to_registry_kept API_KEY route env req st :
  Forall (refers_to_registry (devices st)) (sensorData st) ->
  let st' := snd (handle API_KEY route env req st) in
  Forall (refers_to_registry (devices st')) (sensorData st').
Proof.
  apply (handle_keeps_invariant
           (fun s => Forall (refers_to_registry (devices s)) (sensorData s))).
  - intros st1 st2 Hd Hs H. rewrite <- Hd, <- Hs. exact H.
  - intros env' req' st0 r st' H Hok Hst0.
    destruct (stored_submit _ _ _ _ _ _ H Hok)
      as (field & temp & hum & k & _ & _ & _ & _ & _ & _ & _ & Hkey & _ & Hst').
    cbv zeta in Hst'. subst st'.
    rewrite logConnection_sensorData, logConnection_devices.
    cbn [sensorData devices with_sensorData].
    rewrite auto_register_sensorData, check_ranges_sensorData.
    apply List.Forall_forall. intros e He.
    apply push_capped_In in He as [-> | He].
    + unfold refers_to_registry. cbn [create_entry Entry.device_meta Entry.device_id].
      destruct (get_property _ k) as [device | |] eqn:Hmeta; [| exact I | exact I].
      exists k. split; [exact Hkey | apply get_property_Own, Hmeta].
    + pose proof (proj1 (List.Forall_forall _ _) Hst0 e He) as Hold.
      unfold refers_to_registry in *.
      destruct (Entry.device_meta e) as [device | |]; [| exact I | exact I].
      destruct Hold as (key & Hk & Hd). exists key. split; [exact Hk |].
      apply auto_register_keeps. rewrite check_ranges_devices. exact Hd.
  - intros p st0 H. cbn [sensorData devices with_sensorData].
    apply List.Forall_forall. intros e He. apply filter_In in He as [He _].
    exact (proj1 (List.Forall_forall _ _) H e He).
Qed.

(** X9: whatever requests the server handles after it started, the device
    that an entry of [sensorData] refers to ([device_meta]) is the device
    that [devices] holds, at that time, under the key of the entry's
    [device_id]: the metadata taken when the reading was stored and the
    registry never come apart. *)
Theorem entries_refer_to_registry API_KEY requests started :
  let final := serve API_KEY requests (initial_state started) in
  Forall (refers_to_registry (devices final)) (sensorData final).
Proof.
  apply (serve_keeps_invariant
           (fun s => Forall (refers_to_registry (devices s)) (sensorData s))).
  - intros route env req st. apply refers_to_registry_kept.
  - apply Forall_nil. exact I.
Qed.

(** ** Submits answered 500 *)

Lemma parseFloat_throws v : JS.parseFloat v = None -> JS.ToString v = None.
Proof. unfold JS.parseFloat. destruct (JS.ToString v); [discriminate | reflexivity]. Qed.

(** X10: a submit answered 500 leaves [devices] and [sensorData] as they
    were, and is caused by the payload: either the body is [undefined] or
    [null], or the [temperature], the [humidity] or the [device_id] is a
    value that [ToString] cannot convert (an object with a property
    [toString] of its own, or an array holding one). *)
Theorem server_error_keeps_stores API_KEY env req st r st' :
  post_api_data API_KEY env req st = (r, st') ->
  status r = 500 ->
  devices st' = devices st /\
  sensorData st' = sensorData st /\
  ((exists message, destructure (body req) = inl message) \/
   (exists field,
      destructure (body req) = inr field /\
      (JS.ToString (field "temperature") = None \/
       JS.ToString (field "humidity") = None \/
       JS.ToString (field "device_id") = None))).
Proof.
  intros H Hstatus.
  handler_paths H; cbn [status] in Hstatus; try discriminate;
    rewrite ?logConnection_devices, ?logConnection_sensorData,
            ?check_ranges_devices, ?check_ranges_sensorData;
    (split; [reflexivity |]); (split; [reflexivity |]).
  all: first
         [ left; eexists; reflexivity
         | right; eexists; split; [reflexivity |];
           first [ left; apply parseFloat_throws; assumption
                 | right; left; apply parseFloat_throws; assumption
                 | right; right; assumption ] ].
Qed.

Lemma server_error_keeps_stores_witness :
  let out := post_api_data Sample.secret Sample.env0 Scenario.unconvertible_id
               Sample.st0 in
  out = (fst out, snd out) /\
  status (fst out) = 500 /\
  devices (snd out) = devices Sample.st0 /\
  sensorData (snd out) = sensorData Sample.st0 /\
  ((exists message, destructure (body Scenario.unconvertible_id) = inl message) \/
   (exists field,
      destructure (body Scenario.unconvertible_id) = inr field /\
      (JS.ToString (field "temperature") = None \/
       JS.ToString (field "humidity") = None \/
       JS.ToString (field "device_id") = None))).
Proof.
  intros out. split; [apply surjective_pairing |]. split; [reflexivity |].
  exact (server_error_keeps_stores Sample.secret Sample.env0 Scenario.unconvertible_id
           Sample.st0 (fst out) (snd out) (surjective_pairing out) eq_refl).
Defined.

(** The range warning logged before the exception stays in the log. *)
Example warning_stays_after_exception :
  Log.status <$> connectionLogs (snd (post_api_data Sample.secret Sample.env0
                                        Scenario.unconvertible_id Sample.st0))
  = ["WARNING"; "ERROR"].
Proof. reflexivity. Qed.

(** ** Reading the entries back *)

Lemma push_capped_snoc {A : Type} cap (x : A) (l : list A) :
  0 < cap -> exists l', push_capped cap x l = l' ++ [x].
Proof.
  intros Hcap. unfold push_capped.
  destruct (Nat.ltb_spec cap (length (l ++ [x]))) as [Hfull | Hroom].
  - destruct l as [| y l]; [simpl in Hfull; lia |]. exists l. reflexivity.
  - exists l. reflexivity.
Qed.

Lemma get_api_data_window req st (o m : nat) (limit : Z) :
  JS.parseInt (query_param req "offset" (JS.Num (JS.of_Z 0))) = Some (Some (Z.of_nat o)) ->
  JS.parseInt (query_param req "limit" (JS.Num (JS.of_Z 50))) = Some (Some limit) ->
  Z.min limit 500 = Z.of_nat m ->
  let filtered := filter_by_device (JS.lookup_prop "device_id" (query req)) (sensorData st) in
  get_api_data req st
  = (mkResponse 200
       (DataPage (length filtered) (length (take m (drop o filtered)))
                 (Some (Z.of_nat o)) (Some (Z.min limit 500))
                 (rev (take m (drop o filtered)))),
     st).
Proof.
  intros Hoffset Hlimit Hm filtered.
  unfold get_api_data. rewrite Hoffset, Hlimit. cbv zeta. fold filtered.
  cbn [JS.Math_min]. rewrite Hm, slice_window. reflexivity.
Qed.

(** X11: a reading stored under the string [d] as [device_id] is found by
    [GET /api/data?device_id=d]: it is the newest match, the total is at
    least 1, and with offset 0 it is the first entry of the page as long as
    the matches are no more than min(limit, 500).  (With more matches the
    page at offset 0 holds the oldest ones.) *)
Theorem stored_reading_is_listed API_KEY env req st r st' field d q (l : nat) :
  post_api_data API_KEY env req st = (r, st') ->
  status r = 200 ->
  destructure (body req) = inr field ->
  field "device_id" = JS.Str d ->
  JS.lookup_prop "device_id" (query q) = JS.Str d ->
  JS.parseInt (query_param q "offset" (JS.Num (JS.of_Z 0))) = Some (Some 0%Z) ->
  JS.parseInt (query_param q "limit" (JS.Num (JS.of_Z 50))) = Some (Some (Z.of_nat l)) ->
  exists entry total page,
    get_api_data q st'
    = (mkResponse 200
         (DataPage total (length page) (Some 0%Z) (Some (Z.min (Z.of_nat l) 500)) page),
       st') /\
    last (sensorData st') = Some entry /\
    Entry.device_id entry = JS.Str d /\
    1 <= total /\
    (total <= min l 500 -> head page = Some entry).
Proof.
  intros H Hstatus Hfield Hid Hquery Hoffset Hlimit.
  destruct (stored_submit _ _ _ _ _ _ H Hstatus)
    as (field' & temp & hum & key & Hfield' & Htruthy & _ & _ & _ & _ & _ & _ & _ & Hst).
  rewrite Hfield in Hfield'. injection Hfield' as <-.
  cbv zeta in Hst. rewrite Hid in Htruthy.
  match type of Hst with
  | _ = logConnection _ _ _ _ (with_sensorData (push_capped _ ?e ?data) _) =>
      destruct (push_capped_snoc 1000 e data ltac:(lia)) as [older Holder];
      assert (Hdata : sensorData st' = older ++ [e])
        by (rewrite Hst, logConnection_sensorData; cbn [sensorData with_sensorData];
            exact Holder);
      exists e
  end.
  pose proof (get_api_data_window q st' 0 (min l 500) (Z.of_nat l)
                Hoffset Hlimit ltac:(lia)) as Hpage.
  cbv zeta in Hpage. rewrite Hquery in Hpage.
  unfold filter_by_device in Hpage. rewrite Htruthy, Hdata in Hpage.
  rewrite List.filter_app in Hpage. cbn [List.filter] in Hpage.
  rewrite Hid in Hpage. cbn [create_entry Entry.device_id JS.strict_eq] in Hpage.
  rewrite String.eqb_refl in Hpage. cbn [drop] in Hpage.
  match type of Hpage with
  | _ = (mkResponse 200 (DataPage ?total _ _ _ ?page), _) => exists total, page
  end.
  split; [rewrite length_rev; exact Hpage |].
  split; [rewrite Hdata; apply last_snoc |].
  split; [cbn [create_entry Entry.device_id]; exact Hid |].
  split; [rewrite length_app; simpl; lia |].
  intros Hfew. rewrite take_ge by exact Hfew.
  rewrite drop_0, rev_app_distr, Hid. reflexivity.
Qed.

Lemma stored_reading_is_listed_witness :
  let out := post_api_data Sample.secret Sample.env0 Sample.right_key Sample.st_five in
  let field := fun k => JS.lookup_prop k Scenario.dev1_props in
  out = (fst out, snd out) /\
  status (fst out) = 200 /\
  destructure (body Sample.right_key) = inr field /\
  field "device_id" = JS.Str "DEV1" /\
  JS.lookup_prop "device_id" (query Scenario.of_dev1) = JS.Str "DEV1" /\
  JS.parseInt (query_param Scenario.of_dev1 "offset" (JS.Num (JS.of_Z 0)))
  = Some (Some 0%Z) /\
  JS.parseInt (query_param Scenario.of_dev1 "limit" (JS.Num (JS.of_Z 50)))
  = Some (Some (Z.of_nat 50)) /\
  exists entry total page,
    get_api_data Scenario.of_dev1 (snd out)
    = (mkResponse 200
         (DataPage total (length page) (Some 0%Z) (Some (Z.min (Z.of_nat 50) 500)) page),
       snd out) /\
    last (sensorData (snd out)) = Some entry /\
    Entry.device_id entry = JS.Str "DEV1" /\
    1 <= total /\
    (total <= min 50 500 -> head page = Some entry).
Proof.
  intros out field.
  split; [apply surjective_pairing |].
  do 6 (split; [reflexivity |]).
  exact (stored_reading_is_listed Sample.secret Sample.env0 Sample.right_key
           Sample.st_five (fst out) (snd out) field "DEV1" Scenario.of_dev1 50
           (surjective_pairing out) eq_refl eq_refl eq_refl eq_refl eq_refl eq_refl).
Defined.

(** X12: the bound of 500 does not hold for a negative limit.  With offset
    0 and limit [-k], [GET /api/data] returns all the matches but the [k]
    newest ([slice(0, -k)]), however many they are: [limit=-1] on 1000
    matches returns 999 entries. *)
Theorem negative_limit_escapes_cap req st (k : nat) :
  0 < k ->
  JS.parseInt (query_param req "offset" (JS.Num (JS.of_Z 0))) = Some (Some 0%Z) ->
  JS.parseInt (query_param req "limit" (JS.Num (JS.of_Z 50)))
  = Some (Some (- Z.of_nat k)%Z) ->
  let filtered := filter_by_device (JS.lookup_prop "device_id" (query req)) (sensorData st) in
  get_api_data req st
  = (mkResponse 200
       (DataPage (length filtered) (length filtered - k) (Some 0%Z)
                 (Some (- Z.of_nat k)%Z) (rev (take (length filtered - k) filtered))),
     st).
Proof.
  intros Hk Hoffset Hlimit filtered.
  unfold get_api_data. rewrite Hoffset, Hlimit. cbv zeta. fold filtered.
  cbn [JS.Math_min JS.add].
  replace (Z.min (- Z.of_nat k) 500) with (- Z.of_nat k)%Z by lia.
  assert (Hslice : JS.slice filtered (Some 0%Z) (Some (0 + - Z.of_nat k)%Z)
                   = take (length filtered - k) filtered).
  { unfold JS.slice, JS.ToIntegerOrInfinity.
    destruct (Z.ltb_spec 0 0) as [Hneg | _]; [lia |].
    destruct (Z.ltb_spec (0 + - Z.of_nat k) 0) as [_ | Hnonneg]; [| lia].
    replace (Z.to_nat (Z.min 0 (Z.of_nat (length filtered)))) with 0 by lia.
    cbn [drop]. f_equal. lia. }
  rewrite Hslice, length_take. do 3 f_equal. lia.
Qed.

Lemma negative_limit_escapes_cap_witness :
  0 < 1 /\
  JS.parseInt (query_param Scenario.all_but_newest "offset" (JS.Num (JS.of_Z 0)))
  = Some (Some 0%Z) /\
  JS.parseInt (query_param Scenario.all_but_newest "limit" (JS.Num (JS.of_Z 50)))
  = Some (Some (- Z.of_nat 1)%Z) /\
  get_api_data Scenario.all_but_newest Sample.st_five
  = (mkResponse 200
       (DataPage 5 4 (Some 0%Z) (Some (-1)%Z)
          [Sample.entry_at 1699999400000 "DEV1"; Sample.entry_at 1699999300000 "DEV1";
           Sample.entry_at 1699999200000 "DEV2"; Sample.entry_at 1699999100000 "DEV1"]),
     Sample.st_five).
Proof.
  split; [lia |]. split; [reflexivity |]. split; [reflexivity |].
  exact (negative_limit_escapes_cap Scenario.all_but_newest Sample.st_five 1
           ltac:(lia) eq_refl eq_refl).
Defined.

(** X13: when [parseInt] reads no number in the offset or in the limit, the
    page of [GET /api/data] is empty, whatever the other parameter is, while
    [total] still counts the matches; the unread parameter is reported as
    NaN. *)
Theorem unreadable_page_is_empty req st o l :
  JS.parseInt (query_param req "offset" (JS.Num (JS.of_Z 0))) = Some o ->
  JS.parseInt (query_param req "limit" (JS.Num (JS.of_Z 50))) = Some l ->
  o = None \/ l = None ->
  let filtered := filter_by_device (JS.lookup_prop "device_id" (query req)) (sensorData st) in
  get_api_data req st
  = (mkResponse 200
       (DataPage (length filtered) 0 o (JS.Math_min l (Some 500%Z)) []),
     st).
Proof.
  intros Hoffset Hlimit Hnan filtered.
  unfold get_api_data. rewrite Hoffset, Hlimit. cbv zeta. fold filtered.
  assert (Hslice : JS.slice filtered o (JS.add o (JS.Math_min l (Some 500%Z))) = []).
  { unfold JS.slice, JS.ToIntegerOrInfinity.
    destruct Hnan as [-> | ->].
    - cbn [JS.add]. destruct (Z.ltb_spec 0 0); [lia |].
      rewrite Z.sub_diag. reflexivity.
    - destruct o as [z |]; cbn [JS.Math_min JS.add].
      + replace (Z.to_nat _) with 0 at 1; [reflexivity |].
        destruct (Z.ltb_spec 0 0); [lia |]. destruct (Z.ltb_spec z 0); lia.
      + destruct (Z.ltb_spec 0 0); [lia |]. rewrite Z.sub_diag. reflexivity. }
  rewrite Hslice. reflexivity.
Qed.

Lemma unreadable_page_is_empty_witness :
  JS.parseInt (query_param Scenario.unreadable_offset "offset" (JS.Num (JS.of_Z 0)))
  = Some None /\
  JS.parseInt (query_param Scenario.unreadable_offset "limit" (JS.Num (JS.of_Z 50)))
  = Some (Some 50%Z) /\
  (@None Z = None \/ Some 50%Z = None) /\
  get_api_data Scenario.unreadable_offset Sample.st_five
  = (mkResponse 200 (DataPage 5 0 None (Some 50%Z) []), Sample.st_five).
Proof.
  split; [reflexivity |]. split; [reflexivity |]. split; [left; reflexivity |].
  exact (unreadable_page_is_empty Scenario.unreadable_offset Sample.st_five
           None (Some 50%Z) eq_refl eq_refl (or_introl eq_refl)).
Defined.

(** ** What the routes leave alone *)

(** X14: the routes that only read ([GET /], [/health], [/api/devices],
    [/api/data], [/api/logs], [/api/stats]) and the 404 handler leave the
    whole state as it is, whatever their parameters and whatever they answer;
    a cleanup changes neither [devices] nor [connectionLogs]; the error
    handler changes neither [devices] nor [sensorData]; a submit leaves
    [devices] as it is or adds one device to it. *)
Theorem routes_leave_alone API_KEY route env req st :
  let st' := snd (handle API_KEY route env req st) in
  match route with
  | PostData => devices st' = devices st \/ size (devices st') = S (size (devices st))
  | Cleanup => devices st' = devices st /\ connectionLogs st' = connectionLogs st
  | ErrorHandler _ => devices st' = devices st /\ sensorData st' = sensorData st
  | Root | HealthCheck | GetDevices | GetData | GetLogs | GetStats | NoRoute => st' = st
  end.
Proof.
  destruct route; cbn [handle snd]; try reflexivity.
  - destruct (post_api_data API_KEY env req st) as [r st'] eqn:H. cbn [snd].
    destruct (Nat.eq_dec (status r) 200) as [Hok | Hfailed];
      [| left; exact (rejected_submit_devices _ _ _ _ _ _ H Hfailed)].
    destruct (stored_submit _ _ _ _ _ _ H Hok)
      as (field & temp & hum & key & _ & _ & _ & _ & _ & _ & _ & _ & _ & Hst').
    cbv zeta in Hst'. subst st'.
    rewrite logConnection_devices. cbn [devices with_sensorData].
    rewrite auto_register_devices, check_ranges_devices.
    destruct (Property_truthy (get_property (devices st) key)) eqn:Hfound;
      [left; reflexivity | right].
    apply map_size_insert_None, get_property_falsy, Hfound.
  - unfold get_api_data.
    repeat match goal with
           | |- context [match ?x with _ => _ end] => destruct x
           end; reflexivity.
  - unfold delete_api_data_cleanup. destruct (JS.parseInt _); split; reflexivity.
  - split; reflexivity.
Qed.

Lemma filter_filter_same {A : Type} (p : A -> bool) (l : list A) :
  List.filter p (List.filter p l) = List.filter p l.
Proof.
  induction l as [| x l IH]; [reflexivity |].
  simpl. destruct (p x) eqn:Hp; [| exact IH].
  simpl. rewrite Hp, IH. reflexivity.
Qed.

(** X15: a cleanup repeated at the same instant with the same parameters
    changes nothing more: the state after the second cleanup is the state
    after the first, and when the first was answered 200 the second reports
    0 entries deleted and the same number remaining. *)
Theorem cleanup_twice env req st r st' :
  delete_api_data_cleanup env req st = (r, st') ->
  exists r',
    delete_api_data_cleanup env req st' = (r', st') /\
    (status r = 200 ->
     exists days, json r' = CleanedUp 0 days (length (sensorData st'))).
Proof.
  unfold delete_api_data_cleanup.
  destruct (JS.parseInt (query_param req "days" _)) as [n |] eqn:Hdays;
    cbv zeta; intros H; injection H as <- <-.
  - cbn [app sensorData devices connectionLogs with_sensorData].
    rewrite filter_filter_same. eexists. split.
    + unfold with_sensorData. cbn [sensorData devices connectionLogs]. reflexivity.
    + intros _. eexists. cbn [json]. f_equal. lia.
  - eexists. split; [reflexivity | discriminate].
Qed.

Lemma cleanup_twice_witness :
  let out := delete_api_data_cleanup Sample.env0 Sample.cleanup_request Sample.st_week in
  out = (fst out, snd out) /\
  exists r',
    delete_api_data_cleanup Sample.env0 Sample.cleanup_request (snd out) = (r', snd out) /\
    (status (fst out) = 200 ->
     exists days, json r' = CleanedUp 0 days (length (sensorData (snd out)))).
Proof.
  intros out. split; [apply surjective_pairing |].
  exact (cleanup_twice Sample.env0 Sample.cleanup_request Sample.st_week
           (fst out) (snd out) (surjective_pairing out)).
Defined.

(** ** Runs of submits *)

Lemma appended_by_origin API_KEY env req st e :
  In e (appended_by API_KEY env req st) ->
  exists field,
    destructure (body req) = inr field /\
    Entry.device_id e = field "device_id" /\
    Entry.received_at e = now env.
Proof.
  unfold appended_by.
  destruct (post_api_data API_KEY env req st) as [r st'] eqn:H.
  destruct (Nat.eqb_spec (status r) 200) as [Hok | _]; [| intros []].
  destruct (stored_submit _ _ _ _ _ _ H Hok)
    as (field & temp & hum & key & Hfield & _ & _ & _ & _ & _ & _ & _ & _ & Hst').
  cbv zeta in Hst'. subst st'.
  rewrite logConnection_sensorData. cbn [sensorData with_sensorData].
  rewrite push_capped_last by lia.
  intros [<- | []]. exists field. repeat split. exact Hfield.
Qed.

Lemma appended_by_length API_KEY env req st :
  length (appended_by API_KEY env req st) <= 1.
Proof.
  unfold appended_by. destruct (post_api_data API_KEY env req st) as [r st'].
  destruct (status r =? 200); [| simpl; lia].
  destruct (last (sensorData st')); simpl; lia.
Qed.

Lemma submit_all_origin API_KEY submits st :
  length (fst (submit_all API_KEY submits st)) <= length submits /\
  Forall (fun e => exists env req field,
                     In (env, req) submits /\
                     destructure (body req) = inr field /\
                     Entry.device_id e = field "device_id" /\
                     Entry.received_at e = now env)
         (fst (submit_all API_KEY submits st)).
Proof.
  revert st. induction submits as [| [env req] rest IH]; intros st.
  { split; [reflexivity | apply Forall_nil; exact I]. }
  cbn [submit_all].
  specialize (IH (snd (post_api_data API_KEY env req st))).
  destruct (submit_all API_KEY rest _) as [entries final].
  cbn [fst] in *. destruct IH as [Hlen Hall]. split.
  - rewrite length_app. pose proof (appended_by_length API_KEY env req st).
    simpl. lia.
  - apply List.Forall_forall. intros e He.
    apply in_app_or in He as [He | He].
    + destruct (appended_by_origin _ _ _ _ _ He) as (field & Hf & Hid & Hat).
      exists env, req, field. repeat split; try assumption. left; reflexivity.
    + destruct (proj1 (List.Forall_forall _ _) Hall e He)
        as (env' & req' & field & Hin & Hf & Hid & Hat).
      exists env', req', field. repeat split; try assumption. right; exact Hin.
Qed.

(** X16: after any run of submits on a server that has just started,
    [sensorData] holds, in the order they were stored, the last 1000 of the
    entries that the accepted submits appended; each of these entries comes
    from one submit of the run, with that submit's [device_id] and instant;
    submits that were not accepted appended nothing and evicted nothing. *)
Theorem run_of_submits API_KEY submits started :
  let '(entries, final) := submit_all API_KEY submits (initial_state started) in
  sensorData final = drop (length entries - 1000) entries /\
  length entries <= length submits /\
  Forall (fun e => exists env req field,
                     In (env, req) submits /\
                     destructure (body req) = inr field /\
                     Entry.device_id e = field "device_id" /\
                     Entry.received_at e = now env)
         entries.
Proof.
  pose proof (submit_all_sensorData API_KEY submits (initial_state started)) as Hdata.
  pose proof (submit_all_origin API_KEY submits (initial_state started)) as [Hlen Hall].
  destruct (submit_all API_KEY submits (initial_state started)) as [entries final].
  cbn [fst snd sensorData initial_state] in *.
  split; [| split; assumption].
  rewrite Hdata, push_all_drop by (simpl; lia). reflexivity.
Qed.

(** ** The variant backed by a database *)



(** ** The outcome of a submit in the log *)

Lemma logs_page_head st :
  match json (fst (get_api_logs st)) with
  | LogPage _ page => head page = last (connectionLogs st)
  | _ => False
  end.
Proof.
  unfold get_api_logs. cbn [fst json].
  change (Some (-50)%Z) with (Some (- Z.of_nat 50)%Z).
  rewrite (slice_from_end (connectionLogs st) 50) by lia.
  rewrite head_rev.
  destruct (connectionLogs st) as [| x logs] eqn:Hlogs; [reflexivity |].
  apply last_drop. simpl. lia.
Qed.

(** X18: whatever a submit answers, the record of its outcome (SUCCESS for
    200, ERROR otherwise, with the address, the user agent and the presence
    of a credential of that request) is the first record of a
    [GET /api/logs] made right after it. *)
Theorem outcome_heads_recent_logs API_KEY env req st r st' :
  post_api_data API_KEY env req st = (r, st') ->
  exists message count page,
    get_api_logs st' = (mkResponse 200 (LogPage count page), st') /\
    head page
    = Some (make_log env req (if status r =? 200 then "SUCCESS" else "ERROR") message).
Proof.
  intros H.
  assert (Hlast : exists message,
             last (connectionLogs st')
             = Some (make_log env req (if status r =? 200 then "SUCCESS" else "ERROR")
                              message)).
  { handler_paths H; cbn [status Nat.eqb]; eexists;
      rewrite logConnection_connectionLogs; apply push_capped_last; lia. }
  destruct Hlast as [message Hlast].
  pose proof (logs_page_head st') as Hhead.
  unfold get_api_logs in *. cbn [fst json] in Hhead.
  eexists message, _, _. split; [reflexivity |].
  rewrite Hhead. exact Hlast.
Qed.

Lemma outcome_heads_recent_logs_witness :
  let out := post_api_data Sample.secret Sample.env0 Sample.wrong_key Sample.st0 in
  out = (fst out, snd out) /\
  exists message count page,
    get_api_logs (snd out) = (mkResponse 200 (LogPage count page), snd out) /\
    head page
    = Some (make_log Sample.env0 Sample.wrong_key
              (if status (fst out) =? 200 then "SUCCESS" else "ERROR") message).
Proof.
  intros out. split; [apply surjective_pairing |].
  exact (outcome_heads_recent_logs Sample.secret Sample.env0 Sample.wrong_key
           Sample.st0 (fst out) (snd out) (surjective_pairing out)).
Defined.

(** ** The eviction law on the stores of the server *)

Lemma appended_by_count API_KEY env req st :
  length (appended_by API_KEY env req st)
  = if status (fst (post_api_data API_KEY env req st)) =? 200 then 1 else 0.
Proof.
  unfold appended_by.
  destruct (post_api_data API_KEY env req st) as [r st'] eqn:H. cbn [fst].
  destruct (Nat.eqb_spec (status r) 200) as [Hok | _]; [| reflexivity].
  destruct (stored_submit _ _ _ _ _ _ H Hok)
    as (field & temp & hum & key & _ & _ & _ & _ & _ & _ & _ & _ & _ & Hst').
  cbv zeta in Hst'. subst st'.
  rewrite logConnection_sensorData. cbn [sensorData with_sensorData].
  rewrite push_capped_last by lia. reflexivity.
Qed.

Lemma submit_all_count API_KEY submits st :
  length (fst (submit_all API_KEY submits st)) = accepted API_KEY submits st.
Proof.
  revert st. induction submits as [| [env req] rest IH]; intros st; [reflexivity |].
  cbn [submit_all accepted].
  specialize (IH (snd (post_api_data API_KEY env req st))).
  pose proof (appended_by_count API_KEY env req st) as Hone.
  destruct (post_api_data API_KEY env req st) as [r st']. cbn [fst snd] in *.
  destruct (submit_all API_KEY rest st') as [entries final]. cbn [fst] in *.
  rewrite length_app, Hone, IH. reflexivity.
Qed.

Lemma log_all_connectionLogs calls st :
  connectionLogs (log_all calls st)
  = push_all 100 (map record_of calls) (connectionLogs st) /\
  devices (log_all calls st) = devices st /\
  sensorData (log_all calls st) = sensorData st.
Proof.
  revert st. induction calls as [| [[[env req] status] message] calls IH];
    intros st; [repeat split |].
  unfold log_all in *. cbn [fold_left map record_of].
  destruct (IH (logConnection env req status message st)) as (Hlogs & Hd & Hs).
  rewrite Hlogs, Hd, Hs. repeat split.
Qed.

(** C5: on a server that has just started, after any run of submits of which
    N are accepted (each accepted submit appends one entry to [sensorData],
    the others none), [sensorData] has min(N, 1000) entries, which are the
    last 1000 of the N entries appended, in the order they were appended,
    each one made from its submit; and after any N calls of [logConnection],
    [connectionLogs] has min(N, 100) records, which are the records of the
    last 100 calls, in the order of the calls: the oldest is evicted first,
    whatever it holds. *)
Theorem fifo_eviction_law API_KEY submits calls started :
  (let '(entries, final) := submit_all API_KEY submits (initial_state started) in
   length entries = accepted API_KEY submits (initial_state started) /\
   length (sensorData final) = min (length entries) 1000 /\
   sensorData final = drop (length entries - 1000) entries /\
   Forall (fun e => exists env req field,
                      In (env, req) submits /\
                      destructure (body req) = inr field /\
                      Entry.device_id e = field "device_id" /\
                      Entry.received_at e = now env)
          entries) /\
  (let logged := log_all calls (initial_state started) in
   length (connectionLogs logged) = min (length calls) 100 /\
   connectionLogs logged = drop (length calls - 100) (map record_of calls) /\
   devices logged = devices (initial_state started) /\
   sensorData logged = sensorData (initial_state started)).
Proof.
  split.
  - pose proof (submit_all_sensorData API_KEY submits (initial_state started)) as Hdata.
    pose proof (submit_all_count API_KEY submits (initial_state started)) as Hcount.
    pose proof (submit_all_origin API_KEY submits (initial_state started)) as [_ Hall].
    destruct (submit_all API_KEY submits (initial_state started)) as [entries final].
    cbn [fst snd sensorData initial_state] in *.
    destruct (push_all_from_empty 1000 entries) as [Hlength Hlast].
    rewrite Hdata. repeat split; assumption.
  - cbv zeta.
    destruct (log_all_connectionLogs calls (initial_state started)) as (Hlogs & Hd & Hs).
    cbn [connectionLogs initial_state] in Hlogs.
    destruct (push_all_from_empty 100 (map record_of calls)) as [Hlength Hlast].
    rewrite length_map in Hlength, Hlast.
    rewrite Hlogs. repeat split; assumption.
Qed.

(** Three submits, of which the first and the last are accepted, and two
    calls of [logConnection]. *)
Example eviction_sample_run :
  accepted Sample.secret
    [(Sample.env0, Sample.right_key); (Sample.env0, Sample.wrong_key);
     (Scenario.later, Sample.right_key)] Sample.st0 = 2 /\
  length (sensorData (snd (submit_all Sample.secret
    [(Sample.env0, Sample.right_key); (Sample.env0, Sample.wrong_key);
     (Scenario.later, Sample.right_key)] Sample.st0))) = 2 /\
  Log.message <$> connectionLogs
    (log_all [(Sample.env0, Sample.no_key, "ERROR", "Missing API key");
              (Scenario.later, Sample.right_key, "SUCCESS", "Data received from DEV1")]
             Sample.st0)
  = ["Missing API key"; "Data received from DEV1"].
Proof. repeat split. Qed.
